(** * S3 Control Object Lambda Access Point resource

    A shallow embedding of
    [internal/service/s3control/object_lambda_access_point.go]:
    the resource-ID codec, the expand/flatten mappings between the flat
    Terraform configuration and the nested API structures, and the four
    CRUD handlers, followed by the properties proved about them.

    Conventions of the embedding:
    - a Go [string] is a [string] (a sequence of bytes);
    - a pointer [*T] is an [option T], [None] being [nil];
    - a slice whose nil-ness is observable is an [option (list T)];
    - [interface{}] is the inductive type [Value];
    - [map[string]interface{}] is a [gmap string Value];
    - an [error] result is an [option error], [None] being [nil];
    - a handler is a computation in a state monad over the resource data
      [d] and the remote service, which can also panic. *)

From Stdlib Require Import String Ascii List Bool Arith Lia.
From stdpp Require Import base option gmap strings list.

Set Warnings "-register-all".

(* ================================================================== *)
(** * Go's [strings] package: [Join] and [Split] *)
(* ================================================================== *)

Module strings.

(** [strings.Join(elems, sep)]. *)
Fixpoint Join (elems : list string) (sep : string) : string :=
  match elems with
  | [] => ""
  | [e] => e
  | e :: rest => e +:+ sep +:+ Join rest sep
  end.

(** The loop of [strings.genSplit] for a non-empty separator, one byte
    at a time: [cur] is the part of the current piece already
    scanned, [skip] the number of bytes of a matched separator still to
    be dropped. *)
Fixpoint splitFrom (sep : string) (skip : nat) (cur s : string)
  : list string :=
  match s with
  | EmptyString => [cur]
  | String c s' =>
      match skip with
      | S k => splitFrom sep k cur s'
      | O =>
          if String.prefix sep s
          then cur :: splitFrom sep (String.length sep - 1) "" s'
          else splitFrom sep 0 (cur +:+ String c "") s'
      end
  end.

(** [strings.Split(s, sep)] for [sep <> ""] (the resource's separator
    is the one-byte string [":"]). *)
Definition Split (s sep : string) : list string := splitFrom sep 0 "" s.

(** [strings.Contains(s, substr)] for a one-byte [substr], used to
    state which components survive a round trip. *)
Fixpoint ContainsByte (s : string) (c : ascii) : bool :=
  match s with
  | EmptyString => false
  | String c' s' => if Ascii.eqb c' c then true else ContainsByte s' c
  end.

End strings.

(* ================================================================== *)
(** * Go errors *)
(* ================================================================== *)

(** The dynamic types of [error] values that reach this file. *)
Inductive error : Type :=
| errorString (text : string)
    (** [fmt.Errorf] without [%w], [errors.New] *)
| wrapError (text : string) (err : error)
    (** [fmt.Errorf] with [%w]: the formatted text and the wrapped error *)
| awsError (code message : string)
    (** [awserr.Error] returned by the SDK client *)
| NotFoundError (text : string)
    (** [*resource.NotFoundError] of the plugin SDK *).

(** The [Error()] method. *)
Definition Error (e : error) : string :=
  match e with
  | errorString text => text
  | wrapError text _ => text
  | awsError code message => code +:+ ": " +:+ message
  | NotFoundError text => text
  end.

(** [fmt.Errorf(prefix + ": %w", err)]. *)
Definition Errorf_w (prefix : string) (err : error) : error :=
  wrapError (prefix +:+ ": " +:+ Error err) err.

(* ================================================================== *)
(** * Resource-ID codec *)
(* ================================================================== *)

Definition objectLambdaAccessPointResourceIDSeparator : string := ":".

Definition ObjectLambdaAccessPointCreateResourceID
  (accountID accessPointName : string) : string :=
  let parts := [accountID; accessPointName] in
  let id := strings.Join parts objectLambdaAccessPointResourceIDSeparator in
  id.

Definition ObjectLambdaAccessPointParseResourceID (id : string)
  : string * string * option error :=
  let parts := strings.Split id objectLambdaAccessPointResourceIDSeparator in
  if Nat.eqb (List.length parts) 2
     && negb (String.eqb (nth 0 parts "") "")
     && negb (String.eqb (nth 1 parts "") "")
  then (nth 0 parts "", nth 1 parts "", None)
  else ("", "",
        Some (errorString
                ("unexpected format for ID (" +:+ id
                 +:+ "), expected account-id"
                 +:+ objectLambdaAccessPointResourceIDSeparator
                 +:+ "access-point-name"))).

(* ================================================================== *)
(** * Dynamic values and run-time panics *)
(* ================================================================== *)

(** An [interface{}] as the plugin SDK hands it to the resource: [VNil]
    is the nil interface, [VSet] a [*schema.Set] given by its [List()],
    [VMap] a [map[string]interface{}]. *)
Inductive Value : Type :=
| VNil
| VString (s : string)
| VBool (b : bool)
| VList (l : list Value)
| VSet (l : list Value)
| VMap (m : gmap string Value).

(** The outcome of Go code that can panic (a failed single-value type
    assertion). *)
Inductive result (A : Type) : Type :=
| Ok (a : A)
| Panic.
Arguments Ok {A} a.
Arguments Panic {A}.

Definition result_bind {A B} (r : result A) (k : A -> result B) : result B :=
  match r with
  | Ok a => k a
  | Panic => Panic
  end.

Declare Scope result_scope.
Delimit Scope result_scope with result.
Notation "x <-? r ;; k" := (result_bind r (fun x => k))
  (at level 100, r at next level, right associativity) : result_scope.

(** [m[key]] on a [map[string]interface{}]: the nil interface when the
    key is absent. *)
Definition index (m : gmap string Value) (key : string) : Value :=
  default VNil (m !! key).

(** Two-value type assertions [v, ok := x.(T)]: [None] is [ok = false]. *)
Definition as_string (x : Value) : option string :=
  match x with VString s => Some s | _ => None end.
Definition as_bool (x : Value) : option bool :=
  match x with VBool b => Some b | _ => None end.
Definition as_list (x : Value) : option (list Value) :=
  match x with VList l => Some l | _ => None end.
Definition as_set (x : Value) : option (list Value) :=
  match x with VSet l => Some l | _ => None end.
Definition as_map (x : Value) : option (gmap string Value) :=
  match x with VMap m => Some m | _ => None end.

(** Single-value type assertions [x.(T)]: they panic on a mismatch. *)
Definition assert {A} (o : option A) : result A :=
  match o with Some a => Ok a | None => Panic end.

(** A slice whose nil-ness matters: [None] is the nil slice. *)
Definition len {A} (s : option (list A)) : nat :=
  match s with Some l => List.length l | None => 0 end.

(** [append(s, x)]: appending to the nil slice allocates. *)
Definition append {A} (s : option (list A)) (x : A) : option (list A) :=
  Some (default [] s ++ [x]).

Module aws.
(** [aws.String], [aws.Bool]: a pointer to the value. *)
Definition String (v : string) : option string := Some v.
Definition Bool (v : bool) : option bool := Some v.
(** [aws.StringValue], [aws.BoolValue]: the zero value for nil. *)
Definition StringValue (p : option string) : string := default "" p.
Definition BoolValue (p : option bool) : bool := default false p.
End aws.

Module flex.
(** Modelled from the spec: [flex.ExpandStringSet] lives in
    [internal/flex], which is not under src/. The spec has a present
    collection converted "1:1" to a list of strings; the set is given
    by its [List()]. *)
Definition ExpandStringSet (configured : list Value) : list string :=
  omap as_string configured.
End flex.

(* ================================================================== *)
(** * The nested API structures ([s3control] of the AWS SDK) *)
(* ================================================================== *)

Record AwsLambdaTransformation : Type := {
  FunctionArn : option string;
  FunctionPayload : option string
}.

Record ObjectLambdaContentTransformation : Type := {
  AwsLambda : option AwsLambdaTransformation
}.

Record ObjectLambdaTransformationConfiguration : Type := {
  Actions : option (list string);
  ContentTransformation : option ObjectLambdaContentTransformation
}.

Record ObjectLambdaConfiguration : Type := {
  AllowedFeatures : option (list string);
  CloudWatchMetricsEnabled : option bool;
  SupportingAccessPoint : option string;
  TransformationConfigurations :
    option (list ObjectLambdaTransformationConfiguration)
}.

Record VpcConfiguration : Type := {
  VpcId : option string
}.

Record PublicAccessBlockConfiguration : Type := {
  BlockPublicAcls : option bool;
  BlockPublicPolicy : option bool;
  IgnorePublicAcls : option bool;
  RestrictPublicBuckets : option bool
}.

Record CreateAccessPointForObjectLambdaInput : Type := {
  create_AccountId : option string;
  create_Configuration : option ObjectLambdaConfiguration;
  create_Name : option string
}.

Record DeleteAccessPointForObjectLambdaInput : Type := {
  delete_AccountId : option string;
  delete_Name : option string
}.

(** Field assignments [apiObject.F = v]. *)
Definition set_FunctionArn v (o : AwsLambdaTransformation) :=
  {| FunctionArn := v; FunctionPayload := FunctionPayload o |}.
Definition set_FunctionPayload v (o : AwsLambdaTransformation) :=
  {| FunctionArn := FunctionArn o; FunctionPayload := v |}.
Definition set_AwsLambda v (o : ObjectLambdaContentTransformation) :=
  {| AwsLambda := v |}.
Definition set_Actions v (o : ObjectLambdaTransformationConfiguration) :=
  {| Actions := v; ContentTransformation := ContentTransformation o |}.
Definition set_ContentTransformation v
  (o : ObjectLambdaTransformationConfiguration) :=
  {| Actions := Actions o; ContentTransformation := v |}.
Definition set_AllowedFeatures v (o : ObjectLambdaConfiguration) :=
  {| AllowedFeatures := v;
     CloudWatchMetricsEnabled := CloudWatchMetricsEnabled o;
     SupportingAccessPoint := SupportingAccessPoint o;
     TransformationConfigurations := TransformationConfigurations o |}.
Definition set_CloudWatchMetricsEnabled v (o : ObjectLambdaConfiguration) :=
  {| AllowedFeatures := AllowedFeatures o;
     CloudWatchMetricsEnabled := v;
     SupportingAccessPoint := SupportingAccessPoint o;
     TransformationConfigurations := TransformationConfigurations o |}.
Definition set_SupportingAccessPoint v (o : ObjectLambdaConfiguration) :=
  {| AllowedFeatures := AllowedFeatures o;
     CloudWatchMetricsEnabled := CloudWatchMetricsEnabled o;
     SupportingAccessPoint := v;
     TransformationConfigurations := TransformationConfigurations o |}.
Definition set_TransformationConfigurations v
  (o : ObjectLambdaConfiguration) :=
  {| AllowedFeatures := AllowedFeatures o;
     CloudWatchMetricsEnabled := CloudWatchMetricsEnabled o;
     SupportingAccessPoint := SupportingAccessPoint o;
     TransformationConfigurations := v |}.
Definition set_Configuration v (o : CreateAccessPointForObjectLambdaInput) :=
  {| create_AccountId := create_AccountId o;
     create_Configuration := v;
     create_Name := create_Name o |}.

(* ================================================================== *)
(** * Expand: flat configuration to nested request *)
(* ================================================================== *)

Local Open Scope result_scope.

Definition expandAwsLambdaTransformation (tfMap : option (gmap string Value))
  : option AwsLambdaTransformation :=
  match tfMap with
  | None => None
  | Some tfMap =>
      let apiObject := {| FunctionArn := None; FunctionPayload := None |} in
      let apiObject :=
        match as_string (index tfMap "function_arn") with
        | Some v =>
            if negb (String.eqb v "")
            then set_FunctionArn (aws.String v) apiObject
            else apiObject
        | None => apiObject
        end in
      let apiObject :=
        match as_string (index tfMap "function_payload") with
        | Some v =>
            if negb (String.eqb v "")
            then set_FunctionPayload (aws.String v) apiObject
            else apiObject
        | None => apiObject
        end in
      Some apiObject
  end.

Definition expandObjectLambdaContentTransformation
  (tfMap : option (gmap string Value))
  : result (option ObjectLambdaContentTransformation) :=
  match tfMap with
  | None => Ok None
  | Some tfMap =>
      let apiObject := {| AwsLambda := None |} in
      apiObject <-?
        match as_list (index tfMap "aws_lambda") with
        | Some v =>
            if 0 <? List.length v
            then m <-? assert (as_map (nth 0 v VNil)) ;;
                 Ok (set_AwsLambda (expandAwsLambdaTransformation (Some m))
                       apiObject)
            else Ok apiObject
        | None => Ok apiObject
        end ;;
      Ok (Some apiObject)
  end.

Definition expandObjectLambdaTransformationConfiguration
  (tfMap : option (gmap string Value))
  : result (option ObjectLambdaTransformationConfiguration) :=
  match tfMap with
  | None => Ok None
  | Some tfMap =>
      let apiObject := {| Actions := None; ContentTransformation := None |} in
      let apiObject :=
        match as_set (index tfMap "actions") with
        | Some v =>
            if 0 <? List.length v
            then set_Actions (Some (flex.ExpandStringSet v)) apiObject
            else apiObject
        | None => apiObject
        end in
      apiObject <-?
        match as_list (index tfMap "content_transformation") with
        | Some v =>
            if 0 <? List.length v
            then m <-? assert (as_map (nth 0 v VNil)) ;;
                 c <-? expandObjectLambdaContentTransformation (Some m) ;;
                 Ok (set_ContentTransformation c apiObject)
            else Ok apiObject
        | None => Ok apiObject
        end ;;
      Ok (Some apiObject)
  end.

(** The [for ... range tfList] loop of
    [expandObjectLambdaTransformationConfigurations], with the slice
    [apiObjects] built so far. *)
Fixpoint expandObjectLambdaTransformationConfigurations_loop
  (tfList : list Value)
  (apiObjects : option (list ObjectLambdaTransformationConfiguration))
  : result (option (list ObjectLambdaTransformationConfiguration)) :=
  match tfList with
  | [] => Ok apiObjects
  | tfMapRaw :: rest =>
      match as_map tfMapRaw with
      | None =>
          expandObjectLambdaTransformationConfigurations_loop rest apiObjects
      | Some tfMap =>
          apiObject <-?
            expandObjectLambdaTransformationConfiguration (Some tfMap) ;;
          match apiObject with
          | None =>
              expandObjectLambdaTransformationConfigurations_loop rest
                apiObjects
          | Some apiObject =>
              expandObjectLambdaTransformationConfigurations_loop rest
                (append apiObjects apiObject)
          end
      end
  end.

Definition expandObjectLambdaTransformationConfigurations
  (tfList : list Value)
  : result (option (list ObjectLambdaTransformationConfiguration)) :=
  if List.length tfList =? 0 then Ok None
  else expandObjectLambdaTransformationConfigurations_loop tfList None.

Definition expandObjectLambdaConfiguration (tfMap : option (gmap string Value))
  : result (option ObjectLambdaConfiguration) :=
  match tfMap with
  | None => Ok None
  | Some tfMap =>
      let apiObject :=
        {| AllowedFeatures := None; CloudWatchMetricsEnabled := None;
           SupportingAccessPoint := None;
           TransformationConfigurations := None |} in
      let apiObject :=
        match as_set (index tfMap "allowed_features") with
        | Some v =>
            if 0 <? List.length v
            then set_AllowedFeatures (Some (flex.ExpandStringSet v)) apiObject
            else apiObject
        | None => apiObject
        end in
      let apiObject :=
        match as_bool (index tfMap "cloud_watch_metrics_enabled") with
        | Some v =>
            if v
            then set_CloudWatchMetricsEnabled (aws.Bool v) apiObject
            else apiObject
        | None => apiObject
        end in
      let apiObject :=
        match as_string (index tfMap "supporting_access_point") with
        | Some v =>
            if negb (String.eqb v "")
            then set_SupportingAccessPoint (aws.String v) apiObject
            else apiObject
        | None => apiObject
        end in
      apiObject <-?
        match as_set (index tfMap "transformation_configuration") with
        | Some v =>
            if 0 <? List.length v
            then l <-? expandObjectLambdaTransformationConfigurations v ;;
                 Ok (set_TransformationConfigurations l apiObject)
            else Ok apiObject
        | None => Ok apiObject
        end ;;
      Ok (Some apiObject)
  end.

(** [vConfig[0] == nil] on a slice of interfaces. *)
Definition is_nil (x : Value) : bool :=
  match x with VNil => true | _ => false end.

Definition expandS3ObjectLambdaAccessPointVpcConfiguration
  (vConfig : option (list Value)) : result (option VpcConfiguration) :=
  if (len vConfig =? 0) || is_nil (nth 0 (default [] vConfig) VNil)
  then Ok None
  else
    mConfig <-? assert (as_map (nth 0 (default [] vConfig) VNil)) ;;
    vpc_id <-? assert (as_string (index mConfig "vpc_id")) ;;
    Ok (Some {| VpcId := aws.String vpc_id |}).

Definition expandS3ObjectLambdaAccessPointPublicAccessBlockConfiguration
  (vConfig : option (list Value))
  : result (option PublicAccessBlockConfiguration) :=
  if (len vConfig =? 0) || is_nil (nth 0 (default [] vConfig) VNil)
  then Ok None
  else
    mConfig <-? assert (as_map (nth 0 (default [] vConfig) VNil)) ;;
    block_public_acls <-?
      assert (as_bool (index mConfig "block_public_acls")) ;;
    block_public_policy <-?
      assert (as_bool (index mConfig "block_public_policy")) ;;
    ignore_public_acls <-?
      assert (as_bool (index mConfig "ignore_public_acls")) ;;
    restrict_public_buckets <-?
      assert (as_bool (index mConfig "restrict_public_buckets")) ;;
    Ok (Some {| BlockPublicAcls := aws.Bool block_public_acls;
                BlockPublicPolicy := aws.Bool block_public_policy;
                IgnorePublicAcls := aws.Bool ignore_public_acls;
                RestrictPublicBuckets := aws.Bool restrict_public_buckets |}).

(* ================================================================== *)
(** * Flatten: nested response to flat configuration *)
(* ================================================================== *)

Definition flattenS3ObjectLambdaAccessPointVpcConfiguration
  (config : option VpcConfiguration) : option (list Value) :=
  match config with
  | None => Some []
  | Some config =>
      Some [VMap {[ "vpc_id" := VString (aws.StringValue (VpcId config)) ]}]
  end.

Definition flattenS3ObjectLambdaAccessPointPublicAccessBlockConfiguration
  (config : option PublicAccessBlockConfiguration) : option (list Value) :=
  match config with
  | None => Some []
  | Some config =>
      Some [VMap (<[ "block_public_acls" :=
                       VBool (aws.BoolValue (BlockPublicAcls config)) ]>
                 (<[ "block_public_policy" :=
                       VBool (aws.BoolValue (BlockPublicPolicy config)) ]>
                 (<[ "ignore_public_acls" :=
                       VBool (aws.BoolValue (IgnorePublicAcls config)) ]>
                 (<[ "restrict_public_buckets" :=
                       VBool (aws.BoolValue (RestrictPublicBuckets config)) ]>
                  ∅))))]
  end.

(* ================================================================== *)
(** * Error classification *)
(* ================================================================== *)

Module errors.
(** [errors.As(err, &awsErr)] for [awserr.Error]: the first error of
    the [Unwrap] chain that is an SDK error, as (code, message). *)
Fixpoint As_awsError (e : error) : option (string * string) :=
  match e with
  | awsError code message => Some (code, message)
  | wrapError _ e' => As_awsError e'
  | errorString _ | NotFoundError _ => None
  end.

(** [errors.As(err, &e)] for [*resource.NotFoundError]. *)
Fixpoint As_NotFoundError (e : error) : option string :=
  match e with
  | NotFoundError text => Some text
  | wrapError _ e' => As_NotFoundError e'
  | errorString _ | awsError _ _ => None
  end.
End errors.

Module tfawserr.
(** [tfawserr.ErrCodeEquals(err, code)] of aws-sdk-go-base. *)
Definition ErrCodeEquals (err : option error) (code : string) : bool :=
  match err with
  | None => false
  | Some e =>
      match errors.As_awsError e with
      | Some (c, _) => String.eqb c code
      | None => false
      end
  end.
End tfawserr.

Module tfresource.
(** Modelled from the spec: [tfresource.NotFound] lives in
    [internal/tfresource], which is not under src/. It tells whether
    the error "signals not found": whether its chain holds the SDK's
    [*resource.NotFoundError]. A nil error does not. *)
Definition NotFound (err : option error) : bool :=
  match err with
  | None => false
  | Some e => bool_decide (is_Some (errors.As_NotFoundError e))
  end.
End tfresource.

(* ================================================================== *)
(** * ARNs ([aws/arn] of the AWS SDK) *)
(* ================================================================== *)

Module arn.
Record ARN : Type := {
  Partition : string;
  Service : string;
  Region : string;
  AccountID : string;
  Resource : string
}.

(** [ARN.String()]; a field left out of the composite literal is the
    empty string. *)
Definition String (a : ARN) : string :=
  "arn:" +:+ Partition a +:+ ":" +:+ Service a +:+ ":" +:+ Region a
  +:+ ":" +:+ AccountID a +:+ ":" +:+ Resource a.
End arn.

(* ================================================================== *)
(** * Resource data ([schema.ResourceData]) *)
(* ================================================================== *)

(** The part of [*schema.ResourceData] the handlers use: the ID, the
    new-resource mark and the attributes, configuration and state being
    merged into one map. *)
Record ResourceData : Type := {
  Id : string;
  IsNewResource : bool;
  attrs : gmap string Value
}.

(** The zero value test of [d.GetOk]. *)
Definition is_zero (v : Value) : bool :=
  match v with
  | VNil => true
  | VString s => String.eqb s ""
  | VBool b => negb b
  | VList l | VSet l => List.length l =? 0
  | VMap m => bool_decide (m = ∅)
  end.

(** [d.GetOk(key)]: the value, and whether it is set to a non-zero
    value. *)
Definition GetOk (d : ResourceData) (key : string) : Value * bool :=
  match attrs d !! key with
  | Some v => (v, negb (is_zero v))
  | None => (VNil, false)
  end.

(** [d.Get(key)] of a [TypeString] attribute: the empty string when
    unset. *)
Definition Get_TypeString (d : ResourceData) (key : string) : Value :=
  default (VString "") (attrs d !! key).

Definition SetId (v : string) (d : ResourceData) : ResourceData :=
  {| Id := v; IsNewResource := IsNewResource d; attrs := attrs d |}.

(** [d.Set(key, value)] (its error result is dropped by the handlers). *)
Definition Set_ (key : string) (value : Value) (d : ResourceData)
  : ResourceData :=
  {| Id := Id d; IsNewResource := IsNewResource d;
     attrs := <[ key := value ]> (attrs d) |}.

(* ================================================================== *)
(** * The CRUD handlers *)
(* ================================================================== *)

(** The calls a handler makes on the remote service, in order. *)
Inductive ApiCall : Type :=
| CallCreate (input : CreateAccessPointForObjectLambdaInput)
| CallFind (accountID name : string)
| CallDelete (input : DeleteAccessPointForObjectLambdaInput).

Section CRUD.

(** The remote service: its state, and the client's operations as
    transitions returning the error of the call. *)
Context {World : Type}.

Record S3Control : Type := {
  CreateAccessPointForObjectLambda :
    CreateAccessPointForObjectLambdaInput -> World -> option error * World;
  DeleteAccessPointForObjectLambda :
    DeleteAccessPointForObjectLambdaInput -> World -> option error * World
}.

(** [*conns.AWSClient], the handlers' [meta]. *)
Record AWSClient : Type := {
  AccountID : string;
  Partition : string;
  S3ControlConn : S3Control
}.

(** [errCodeNoSuchAccessPoint] and the finder are declared in other
    files of the package; the finder is used for its error only. *)
Variable errCodeNoSuchAccessPoint : string.
Variable FindObjectLambdaAccessPointByAccountIDAndName :
  S3Control -> string -> string -> World -> option error * World.

(** What a handler runs on: the resource data it was given, the remote
    service, and the calls made so far. *)
Record St : Type := {
  d : ResourceData;
  remote : World;
  calls : list ApiCall
}.

(** A handler step: a state transition that can panic. *)
Definition M (A : Type) : Type := St -> result (A * St).

Definition ret {A} (a : A) : M A := fun st => Ok (a, st).
Definition bind {A B} (m : M A) (k : A -> M B) : M B :=
  fun st => match m st with
            | Ok (a, st') => k a st'
            | Panic => Panic
            end.
Definition lift {A} (r : result A) : M A :=
  fun st => match r with Ok a => Ok (a, st) | Panic => Panic end.
Definition get_d : M ResourceData := fun st => Ok (d st, st).

(** The state after [d] was updated in place. *)
Definition with_d (f : ResourceData -> ResourceData) (st : St) : St :=
  {| d := f (d st); remote := remote st; calls := calls st |}.

(** The state after the call [c] left the remote service in [w]. *)
Definition after_call (c : ApiCall) (w : World) (st : St) : St :=
  {| d := d st; remote := w; calls := calls st ++ [c] |}.

Definition modify_d (f : ResourceData -> ResourceData) : M unit :=
  fun st => Ok (tt, with_d f st).
Definition call (c : ApiCall) (op : World -> option error * World)
  : M (option error) :=
  fun st => let '(err, w) := op (remote st) in Ok (err, after_call c w st).

Notation "x <- m ;; k" := (bind m (fun x => k))
  (at level 100, m at next level, right associativity).
Notation "m ;;; k" := (bind m (fun _ => k))
  (at level 100, right associativity).

Definition resourceObjectLambdaAccessPointRead (meta : AWSClient)
  : M (option error) :=
  let conn := S3ControlConn meta in
  d0 <- get_d ;;
  let '(accountID, name, err) :=
    ObjectLambdaAccessPointParseResourceID (Id d0) in
  match err with
  | Some e => ret (Some e)
  | None =>
      err <- call (CallFind accountID name)
               (FindObjectLambdaAccessPointByAccountIDAndName
                  conn accountID name) ;;
      if negb (IsNewResource d0) && tfresource.NotFound err
      then modify_d (SetId "") ;;; ret None
      else
        match err with
        | Some e =>
            ret (Some (Errorf_w
                         ("error reading S3 Object Lambda Access Point ("
                          +:+ Id d0 +:+ ")") e))
        | None =>
            modify_d (Set_ "account_id" (VString accountID)) ;;;
            let arn :=
              arn.String {| arn.Partition := Partition meta;
                            arn.Service := "s3-object-lambda";
                            arn.Region := "";
                            arn.AccountID := accountID;
                            arn.Resource := "accesspoint/" +:+ name |} in
            modify_d (Set_ "arn" (VString arn)) ;;;
            modify_d (Set_ "name" (VString name)) ;;;
            ret None
        end
  end.

Definition resourceObjectLambdaAccessPointCreate (meta : AWSClient)
  : M (option error) :=
  let conn := S3ControlConn meta in
  d0 <- get_d ;;
  let accountID := AccountID meta in
  accountID <-
    (let '(v, ok) := GetOk d0 "account_id" in
     if ok then lift (assert (as_string v)) else ret accountID) ;;
  name <- lift (assert (as_string (Get_TypeString d0 "name"))) ;;
  let resourceID := ObjectLambdaAccessPointCreateResourceID accountID name in
  let input := {| create_AccountId := aws.String accountID;
                  create_Configuration := None;
                  create_Name := aws.String name |} in
  input <-
    (let '(v, ok) := GetOk d0 "configuration" in
     if ok
     then
       l <- lift (assert (as_list v)) ;;
       if (0 <? List.length l) && negb (is_nil (nth 0 l VNil))
       then
         m <- lift (assert (as_map (nth 0 l VNil))) ;;
         c <- lift (expandObjectLambdaConfiguration (Some m)) ;;
         ret (set_Configuration c input)
       else ret input
     else ret input) ;;
  err <- call (CallCreate input)
           (CreateAccessPointForObjectLambda conn input) ;;
  match err with
  | Some e =>
      ret (Some (Errorf_w
                   ("error creating S3 Object Lambda Access Point ("
                    +:+ resourceID +:+ ")") e))
  | None =>
      modify_d (SetId resourceID) ;;;
      resourceObjectLambdaAccessPointRead meta
  end.

Definition resourceObjectLambdaAccessPointUpdate (meta : AWSClient)
  : M (option error) :=
  resourceObjectLambdaAccessPointRead meta.

Definition resourceObjectLambdaAccessPointDelete (meta : AWSClient)
  : M (option error) :=
  let conn := S3ControlConn meta in
  d0 <- get_d ;;
  let '(accountID, name, err) :=
    ObjectLambdaAccessPointParseResourceID (Id d0) in
  match err with
  | Some e => ret (Some e)
  | None =>
      let input := {| delete_AccountId := aws.String accountID;
                      delete_Name := aws.String name |} in
      err <- call (CallDelete input)
               (DeleteAccessPointForObjectLambda conn input) ;;
      if tfawserr.ErrCodeEquals err errCodeNoSuchAccessPoint
      then ret None
      else
        match err with
        | Some e =>
            ret (Some (Errorf_w
                         ("error deleting S3 Object Lambda Access Point ("
                          +:+ Id d0 +:+ ")") e))
        | None => ret None
        end
  end.

End CRUD.

(* ================================================================== *)
(** * Flat configuration blocks of the two flattened types *)
(* ================================================================== *)

Definition result_map {A B} (f : A -> B) (r : result A) : result B :=
  match r with Ok a => Ok (f a) | Panic => Panic end.

(** A fully-populated VPC configuration block in flat form. *)
Definition VpcConfiguration_block (vpc_id : string) : option (list Value) :=
  Some [VMap {[ "vpc_id" := VString vpc_id ]}].

(** A fully-populated public access block configuration in flat form. *)
Definition PublicAccessBlockConfiguration_block
  (block_public_acls block_public_policy ignore_public_acls
     restrict_public_buckets : bool) : option (list Value) :=
  Some [VMap (list_to_map
                [("restrict_public_buckets", VBool restrict_public_buckets);
                 ("ignore_public_acls", VBool ignore_public_acls);
                 ("block_public_policy", VBool block_public_policy);
                 ("block_public_acls", VBool block_public_acls)])].

(* ================================================================== *)
(** * The Create scenario *)
(* ================================================================== *)

(** The configuration block of the scenario. *)
Definition scenario_configuration : gmap string Value :=
  {[ "allowed_features" := VSet [VString "GetObject-Range"];
     "supporting_access_point" :=
       VString "arn:aws:s3:us-east-1:123456789012:accesspoint/my-ap" ]}.

(** The attributes Create is given in the scenario. *)
Definition scenario_attrs : gmap string Value :=
  {[ "name" := VString "example";
     "configuration" := VList [VMap scenario_configuration] ]}.

(** The request Create builds from them under account 123456789012. *)
Definition scenario_input : CreateAccessPointForObjectLambdaInput :=
  {| create_AccountId := Some "123456789012";
     create_Configuration :=
       Some {| AllowedFeatures := Some ["GetObject-Range"];
               CloudWatchMetricsEnabled := None;
               SupportingAccessPoint :=
                 Some "arn:aws:s3:us-east-1:123456789012:accesspoint/my-ap";
               TransformationConfigurations := None |};
     create_Name := Some "example" |}.

(** A remote service without state on which every call succeeds, its
    finder, and a client of it in the partition [aws]. *)
Definition conn_ok : @S3Control unit :=
  {| CreateAccessPointForObjectLambda := fun _ w => (None, w);
     DeleteAccessPointForObjectLambda := fun _ w => (None, w) |}.

Definition find_ok (conn : @S3Control unit) (accountID name : string)
  (w : unit) : option error * unit := (None, w).

Definition meta_aws : @AWSClient unit :=
  {| AccountID := "123456789012"; Partition := "aws";
     S3ControlConn := conn_ok |}.

(** The state Create starts from in the scenario: a new resource without
    identifier. *)
Definition scenario_st : @St unit :=
  {| d := {| Id := ""; IsNewResource := true; attrs := scenario_attrs |};
     remote := tt; calls := [] |}.

(** A finder that reports the access point as missing, and a client
    whose delete call fails with a given SDK error code. *)
Definition find_missing (conn : @S3Control unit) (accountID name : string)
  (w : unit) : option error * unit :=
  (Some (NotFoundError "couldn't find resource"), w).

Definition conn_delete_fails (code : string) : @S3Control unit :=
  {| CreateAccessPointForObjectLambda := fun _ w => (None, w);
     DeleteAccessPointForObjectLambda :=
       fun _ w => (Some (awsError code "request failed"), w) |}.

Definition meta_delete_fails (code : string) : @AWSClient unit :=
  {| AccountID := "123456789012"; Partition := "aws";
     S3ControlConn := conn_delete_fails code |}.

(** A resource already in the state, and the same one marked new. *)
Definition tracked_st (new : bool) : @St unit :=
  {| d := {| Id := "123456789012:example"; IsNewResource := new;
             attrs := ∅ |};
     remote := tt; calls := [] |}.

(* ================================================================== *)
(** * The guards of the expand functions *)
(* ================================================================== *)

(** [v, ok := x.(string); ok && v != ""]: the value when the guard
    holds. *)
Definition nonempty_string (x : Value) : option string :=
  match as_string x with
  | Some v => if negb (String.eqb v "") then Some v else None
  | None => None
  end.

(** [v, ok := x.(bool); ok && v]. *)
Definition true_bool (x : Value) : option bool :=
  match as_bool x with
  | Some v => if v then Some v else None
  | None => None
  end.

(** The same guard for a [*schema.Set]: [ok && v.Len() > 0]. *)
Definition nonempty_set (x : Value) : option (list Value) :=
  match as_set x with
  | Some v => if 0 <? List.length v then Some v else None
  | None => None
  end.

(** [v, ok := x.([]interface{}); ok && len(v) > 0]. *)
Definition nonempty_list (x : Value) : option (list Value) :=
  match as_list x with
  | Some v => if 0 <? List.length v then Some v else None
  | None => None
  end.

(* ================================================================== *)
(** * Flat input on which expand panics *)
(* ================================================================== *)

(** A block list whose first element is not a map, as the nil element
    of an empty block: the single-value assertion on it fails. *)
Definition bad_block (x : Value) : Prop :=
  exists y rest, x = VList (y :: rest) /\ as_map y = None.

Definition bad_content_transformation (m : gmap string Value) : Prop :=
  bad_block (index m "aws_lambda").

Definition bad_transformation_configuration (m : gmap string Value) : Prop :=
  bad_block (index m "content_transformation")
  \/ exists m' rest,
       index m "content_transformation" = VList (VMap m' :: rest)
       /\ bad_content_transformation m'.

(** An element of [transformation_configuration] that is such a map. *)
Definition bad_element (v : Value) : Prop :=
  exists m, v = VMap m /\ bad_transformation_configuration m.

Definition bad_configuration (m : gmap string Value) : Prop :=
  exists vs,
    index m "transformation_configuration" = VSet vs
    /\ Exists bad_element vs.

(** A map element of [transformation_configuration] expands to [o]. *)
Definition expands (m : gmap string Value)
  (o : ObjectLambdaTransformationConfiguration) : Prop :=
  expandObjectLambdaTransformationConfiguration (Some m) = Ok (Some o).

(* ================================================================== *)
(** * The request of Create *)
(* ================================================================== *)

(** What [resourceObjectLambdaAccessPointCreate] computes from the
    resource data before it calls the service: the resource ID and the
    request. *)
Definition createRequest {World : Type} (meta : @AWSClient World)
  (d0 : ResourceData)
  : result (string * CreateAccessPointForObjectLambdaInput) :=
  let accountID := AccountID meta in
  accountID <-?
    (let '(v, ok) := GetOk d0 "account_id" in
     if ok then assert (as_string v) else Ok accountID) ;;
  name <-? assert (as_string (Get_TypeString d0 "name")) ;;
  let resourceID := ObjectLambdaAccessPointCreateResourceID accountID name in
  let input := {| create_AccountId := aws.String accountID;
                  create_Configuration := None;
                  create_Name := aws.String name |} in
  input <-?
    (let '(v, ok) := GetOk d0 "configuration" in
     if ok
     then
       l <-? assert (as_list v) ;;
       if (0 <? List.length l) && negb (is_nil (nth 0 l VNil))
       then
         m <-? assert (as_map (nth 0 l VNil)) ;;
         c <-? expandObjectLambdaConfiguration (Some m) ;;
         Ok (set_Configuration c input)
       else Ok input
     else Ok input) ;;
  Ok (resourceID, input).

(* ================================================================== *)
(** * More services and states for the examples *)
(* ================================================================== *)




(* ================================================================== *)
(** * The Kendra thesaurus data source *)
(* ================================================================== *)

(** [diag.Diagnostics] of the plugin SDK: the handlers of the data
    source only build error diagnostics with a summary. *)
Inductive Severity : Type := SeverityError | SeverityWarning.

Record Diagnostic : Type := {
  DiagSeverity : Severity;
  Summary : string
}.

Module diag.
(** [diag.Errorf(format, a...)], given the formatted text. *)
Definition Errorf (text : string) : list Diagnostic :=
  [{| DiagSeverity := SeverityError; Summary := text |}].

(** [diag.FromErr(err)] for a non-nil error. *)
Definition FromErr (err : error) : list Diagnostic :=
  [{| DiagSeverity := SeverityError; Summary := Error err |}].
End diag.

Module kendra.

(** The calls the data source makes on the remote service. *)
Inductive ApiCall : Type :=
| CallFindThesaurus (id indexId : string)
| CallListTags (arn : string).

Section DataSourceThesaurus.

(** The remote service and the types of the SDK and of the packages
    [kendra] and [tftags] that the handler only passes around: the
    client, the tag filter configuration, tag sets, and the response of
    the describe call. *)
Context {World Conn Config Tags Output : Type}.

(** [*conns.AWSClient], as far as the handler reads it. *)
Record AWSClient : Type := {
  KendraConn : Conn;
  IgnoreTagsConfig : Config;
  Partition : string;
  Region : string;
  AccountID : string
}.

(** The text of [arn.ARN{...}.String()] as the handler fills it in. *)
Definition thesaurus_arn (meta : AWSClient) (id indexId : string) : string :=
  "arn:" +:+ Partition meta +:+ ":kendra:" +:+ Region meta
  +:+ ":" +:+ AccountID meta +:+ ":index/" +:+ indexId
  +:+ "/thesaurus/" +:+ id.

(** Declared in other files of the package or in the SDK: the finder,
    the tag lister, the tag filters and [Map()], the value that the
    handler passes to [d.Set] for an attribute of the response (for
    [created_at], say, the formatted time; for [source_s3_path], the
    flattened path), and the error, if any, with which [d.Set] refuses
    a value. *)
Variable FindThesaurusByID :
  Conn -> string -> string -> World -> (option Output * option error) * World.
Variable ListTags :
  Conn -> string -> World -> (Tags * option error) * World.
Variable IgnoreAWS : Tags -> Tags.
Variable IgnoreConfig : Tags -> Config -> Tags.
Variable Map : Tags -> Value.
Variable attribute : string -> Output -> Value.
Variable SetError : string -> Value -> option error.

Record St : Type := {
  d : ResourceData;
  remote : World;
  calls : list ApiCall
}.

(** [d.Set(key, value)] with its error: a refused value is not
    written. *)
Definition Set_checked (key : string) (value : Value) (d0 : ResourceData)
  : option error * ResourceData :=
  match SetError key value with
  | Some e => (Some e, d0)
  | None => (None, Set_ key value d0)
  end.

(** [d.Set(key, value)] as a statement: the error is dropped. *)
Definition Set_unchecked (key : string) (value : Value) (d0 : ResourceData)
  : ResourceData :=
  snd (Set_checked key value d0).

(** The thirteen [d.Set] statements whose error the handler drops. *)
Definition set_attributes (arn : string) (resp : Output) (d0 : ResourceData)
  : ResourceData :=
  let d0 := Set_unchecked "arn" (VString arn) d0 in
  let d0 := Set_unchecked "created_at" (attribute "created_at" resp) d0 in
  let d0 := Set_unchecked "description" (attribute "description" resp) d0 in
  let d0 :=
    Set_unchecked "error_message" (attribute "error_message" resp) d0 in
  let d0 :=
    Set_unchecked "file_size_bytes" (attribute "file_size_bytes" resp) d0 in
  let d0 := Set_unchecked "index_id" (attribute "index_id" resp) d0 in
  let d0 := Set_unchecked "name" (attribute "name" resp) d0 in
  let d0 := Set_unchecked "role_arn" (attribute "role_arn" resp) d0 in
  let d0 := Set_unchecked "status" (attribute "status" resp) d0 in
  let d0 :=
    Set_unchecked "synonym_rule_count" (attribute "synonym_rule_count" resp)
      d0 in
  let d0 := Set_unchecked "term_count" (attribute "term_count" resp) d0 in
  let d0 := Set_unchecked "thesaurus_id" (attribute "thesaurus_id" resp) d0 in
  let d0 := Set_unchecked "updated_at" (attribute "updated_at" resp) d0 in
  d0.

Definition dataSourceThesaurusRead (meta : AWSClient) (st : St)
  : result (list Diagnostic * St) :=
  let conn := KendraConn meta in
  let ignoreTagsConfig := IgnoreTagsConfig meta in
  let d0 := d st in
  (id <-? assert (as_string (Get_TypeString d0 "thesaurus_id")) ;;
   indexId <-? assert (as_string (Get_TypeString d0 "index_id")) ;;
   let '(resp, err, w) := FindThesaurusByID conn id indexId (remote st) in
   let calls1 := calls st ++ [CallFindThesaurus id indexId] in
   match err with
   | Some e =>
       Ok (diag.Errorf ("getting Kendra Thesaurus (" +:+ Id d0 +:+ "): "
                        +:+ Error e),
           {| d := d0; remote := w; calls := calls1 |})
   | None =>
       match resp with
       | None =>
           Ok (diag.Errorf ("getting Kendra Thesaurus (" +:+ id
                            +:+ "): empty response"),
               {| d := d0; remote := w; calls := calls1 |})
       | Some resp =>
           let arn :=
             arn.String {| arn.Partition := Partition meta;
                           arn.Service := "kendra";
                           arn.Region := Region meta;
                           arn.AccountID := AccountID meta;
                           arn.Resource :=
                             "index/" +:+ indexId +:+ "/thesaurus/"
                             +:+ id |} in
           let d1 := set_attributes arn resp d0 in
           match Set_checked "source_s3_path"
                   (attribute "source_s3_path" resp) d1 with
           | (Some e, d2) =>
               Ok (diag.FromErr e,
                   {| d := d2; remote := w; calls := calls1 |})
           | (None, d2) =>
               let '(tags, err, w') := ListTags conn arn w in
               let calls2 := calls1 ++ [CallListTags arn] in
               match err with
               | Some e =>
                   Ok (diag.Errorf
                         ("error listing tags for resource (" +:+ arn
                          +:+ "): " +:+ Error e),
                       {| d := d2; remote := w'; calls := calls2 |})
               | None =>
                   let tags :=
                     IgnoreConfig (IgnoreAWS tags) ignoreTagsConfig in
                   match Set_checked "tags"
                           (Map (IgnoreConfig (IgnoreAWS tags)
                                   ignoreTagsConfig)) d2 with
                   | (Some e, d3) =>
                       Ok (diag.Errorf
                             ("error setting tags: " +:+ Error e),
                           {| d := d3; remote := w'; calls := calls2 |})
                   | (None, d3) =>
                       Ok ([],
                           {| d := SetId (id +:+ "/" +:+ indexId) d3;
                              remote := w'; calls := calls2 |})
                   end
               end
           end
       end
   end)%result.

End DataSourceThesaurus.

End kendra.

(** A Kendra service without state for the examples: the finder answers
    as told, the tag lister succeeds, [d.Set] accepts every value. *)
Definition thesaurus_find (answer : option unit * option error)
  (conn : unit) (id indexId : string) (w : unit)
  : (option unit * option error) * unit := (answer, w).

Definition thesaurus_tags (conn : unit) (arn : string) (w : unit)
  : (unit * option error) * unit := (tt, None, w).

Definition thesaurus_meta : @kendra.AWSClient unit unit :=
  {| kendra.KendraConn := tt; kendra.IgnoreTagsConfig := tt;
     kendra.Partition := "aws"; kendra.Region := "us-east-1";
     kendra.AccountID := "123456789012" |}.

Definition thesaurus_st : @kendra.St unit :=
  {| kendra.d :=
       {| Id := ""; IsNewResource := false;
          attrs := {[ "thesaurus_id" := VString "thes-1";
                      "index_id" := VString "idx-1" ]} |};
     kendra.remote := tt; kendra.calls := [] |}.

(** The data source on that service. *)
Definition thesaurus_read (answer : option unit * option error)
  : @kendra.St unit -> result (list Diagnostic * @kendra.St unit) :=
  kendra.dataSourceThesaurusRead (thesaurus_find answer) thesaurus_tags
    (fun t => t) (fun t _ => t) (fun _ => VMap ∅)
    (fun key _ => VString key) (fun _ _ => None) thesaurus_meta.

(* ################################################################## *)
(** * Theorems *)
(* ################################################################## *)

(* ================================================================== *)
(** * Properties of the resource-ID codec *)
(* ================================================================== *)

Section StringFacts.

Lemma append_cons c s t : String c s +:+ t = String c (s +:+ t).
Proof. reflexivity. Qed.

Lemma append_nil_l t : "" +:+ t = t.
Proof. reflexivity. Qed.

Lemma append_nil_r s : s +:+ "" = s.
Proof. induction s as [|c s IH]; [done|]. by rewrite append_cons, IH. Qed.

Lemma append_assoc s t u : (s +:+ t) +:+ u = s +:+ (t +:+ u).
Proof.
  induction s as [|c s IH]; [done|]. by rewrite !append_cons, IH.
Qed.

Lemma append_snoc s c t : (s +:+ String c "") +:+ t = s +:+ String c t.
Proof. by rewrite append_assoc. Qed.

End StringFacts.

Section SplitColon.

Import strings.

(** One step of the scan when the separator is [":"]. *)
Lemma splitFrom_colon_cons cur c s :
  splitFrom ":" 0 cur (String c s) =
  if Ascii.eqb c ":" then cur :: splitFrom ":" 0 "" s
  else splitFrom ":" 0 (cur +:+ String c "") s.
Proof.
  cbn [splitFrom String.prefix String.length Nat.sub].
  destruct (ascii_dec ":" c) as [<-|Hne].
  - by destruct s.
  - destruct (Ascii.eqb_spec c ":"); [congruence|done].
Qed.

Lemma splitFrom_nonempty sep skip cur s : splitFrom sep skip cur s <> [].
Proof.
  revert skip cur; induction s as [|c s IH]; intros skip cur; [done|].
  cbn [splitFrom]. destruct skip; [|apply IH].
  destruct (String.prefix sep (String c s)); [done|apply IH].
Qed.

Lemma Join_cons e rest sep :
  rest <> [] -> Join (e :: rest) sep = e +:+ sep +:+ Join rest sep.
Proof. by destruct rest. Qed.

(** Joining the pieces gives the scanned text back. *)
Lemma Join_splitFrom_colon s : forall cur,
  Join (splitFrom ":" 0 cur s) ":" = cur +:+ s.
Proof.
  induction s as [|c s IH]; intros cur.
  - by rewrite append_nil_r.
  - rewrite splitFrom_colon_cons.
    destruct (Ascii.eqb_spec c ":") as [->|_].
    + rewrite Join_cons; [|apply splitFrom_nonempty].
      by rewrite IH.
    + by rewrite IH, append_snoc.
Qed.

Lemma Join_Split_colon s : Join (Split s ":") ":" = s.
Proof. apply Join_splitFrom_colon. Qed.

(** A piece without [":"] is scanned through. *)
Lemma splitFrom_colon_app a : forall cur rest,
  ContainsByte a ":" = false ->
  splitFrom ":" 0 cur (a +:+ rest) = splitFrom ":" 0 (cur +:+ a) rest.
Proof.
  induction a as [|c a IH]; intros cur rest Ha.
  - by rewrite append_nil_r.
  - cbn [ContainsByte] in Ha.
    rewrite append_cons, splitFrom_colon_cons.
    destruct (Ascii.eqb c ":"); [done|].
    by rewrite IH, append_snoc.
Qed.

Lemma Split_colon_two a b :
  ContainsByte a ":" = false -> ContainsByte b ":" = false ->
  Split (a +:+ ":" +:+ b) ":" = [a; b].
Proof.
  intros Ha Hb. unfold Split.
  rewrite splitFrom_colon_app, append_nil_l by done.
  change (":" +:+ b) with (String ":" b).
  rewrite splitFrom_colon_cons. cbn [Ascii.eqb Bool.eqb].
  rewrite <- (append_nil_r b), splitFrom_colon_app by done.
  by rewrite append_nil_r.
Qed.

(** No piece of a split on [":"] contains [":"]. *)
Lemma splitFrom_colon_pieces s : forall cur p,
  ContainsByte cur ":" = false ->
  In p (splitFrom ":" 0 cur s) -> ContainsByte p ":" = false.
Proof.
  induction s as [|c s IH]; intros cur p Hcur Hin.
  - destruct Hin as [<-|[]]; done.
  - rewrite splitFrom_colon_cons in Hin.
    destruct (Ascii.eqb c ":") eqn:Hc.
    + destruct Hin as [<-|Hin]; [done|]. by apply (IH "" p).
    + apply (IH (cur +:+ String c "") p); [|done].
      clear -Hcur Hc. induction cur as [|x cur IHc].
      * rewrite append_nil_l. cbn [ContainsByte]. by rewrite Hc.
      * rewrite append_cons. cbn [ContainsByte] in *.
        destruct (Ascii.eqb x ":"); [done|auto].
Qed.

End SplitColon.

(** What [ObjectLambdaAccessPointParseResourceID] decides on. *)
Lemma ParseResourceID_accepts id a n :
  ObjectLambdaAccessPointParseResourceID id = (a, n, None) ->
  strings.Split id ":" = [a; n] /\ a <> "" /\ n <> "".
Proof.
  unfold ObjectLambdaAccessPointParseResourceID,
    objectLambdaAccessPointResourceIDSeparator.
  destruct (strings.Split id ":") as [|p0 [|p1 [|p2 rest]]] eqn:Hs;
    cbn [List.length Nat.eqb andb nth]; try discriminate.
  destruct (String.eqb_spec p0 ""), (String.eqb_spec p1 "");
    cbn [negb andb]; try discriminate.
  by intros [= <- <-].
Qed.

Lemma ParseResourceID_two p0 p1 id :
  strings.Split id ":" = [p0; p1] -> p0 <> "" -> p1 <> "" ->
  ObjectLambdaAccessPointParseResourceID id = (p0, p1, None).
Proof.
  intros Hs H0 H1.
  unfold ObjectLambdaAccessPointParseResourceID,
    objectLambdaAccessPointResourceIDSeparator.
  rewrite Hs. cbn [List.length Nat.eqb andb nth].
  by destruct (String.eqb_spec p0 ""), (String.eqb_spec p1 "").
Qed.

(** C1 (as stated, refuted): an access point name that itself holds the
    separator is non-empty, yet the encoded identifier splits into three
    parts and is rejected. *)
Lemma C1_roundtrip_fails_with_separator :
  "123456789012" <> "" /\ "my:ap" <> "" /\
  ObjectLambdaAccessPointCreateResourceID "123456789012" "my:ap"
  = "123456789012:my:ap" /\
  ObjectLambdaAccessPointParseResourceID
    (ObjectLambdaAccessPointCreateResourceID "123456789012" "my:ap")
  = ("", "",
     Some (errorString
             ("unexpected format for ID (123456789012:my:ap), "
              +:+ "expected account-id:access-point-name"))) /\
  ObjectLambdaAccessPointParseResourceID
    (ObjectLambdaAccessPointCreateResourceID "123456789012" "my:ap")
  <> ("123456789012", "my:ap", None).
Proof. repeat split; try discriminate; reflexivity. Qed.

(** C1 (amended): for non-empty components that do not contain the
    separator [":"], decoding the encoded identifier returns exactly the
    original components and no error. *)
Theorem C1_decode_encode (accountID accessPointName : string) :
  accountID <> "" -> accessPointName <> "" ->
  strings.ContainsByte accountID ":" = false ->
  strings.ContainsByte accessPointName ":" = false ->
  ObjectLambdaAccessPointParseResourceID
    (ObjectLambdaAccessPointCreateResourceID accountID accessPointName)
  = (accountID, accessPointName, None).
Proof.
  intros Ha Hn Hca Hcn.
  apply ParseResourceID_two; [|done..].
  by apply Split_colon_two.
Qed.

(** The round trip on the pair of the Create scenario. *)
Lemma C1_decode_encode_witness :
  ObjectLambdaAccessPointParseResourceID
    (ObjectLambdaAccessPointCreateResourceID "123456789012" "example")
  = ("123456789012", "example", None).
Proof.
  apply C1_decode_encode; [discriminate | discriminate | | ]; reflexivity.
Defined.

(** The amendment of C1 is tight: a pair that survives the round trip
    has non-empty components without the separator. *)
Lemma decode_encode_only_if accountID accessPointName :
  ObjectLambdaAccessPointParseResourceID
    (ObjectLambdaAccessPointCreateResourceID accountID accessPointName)
  = (accountID, accessPointName, None) ->
  accountID <> "" /\ accessPointName <> ""
  /\ strings.ContainsByte accountID ":" = false
  /\ strings.ContainsByte accessPointName ":" = false.
Proof.
  intros (Hs & Ha & Hn)%ParseResourceID_accepts.
  repeat split; [done|done| |];
    apply (splitFrom_colon_pieces
             (ObjectLambdaAccessPointCreateResourceID accountID
                accessPointName) "");
    try reflexivity; fold (strings.Split
             (ObjectLambdaAccessPointCreateResourceID accountID
                accessPointName) ":"); rewrite Hs; cbn; auto.
Qed.

(** C3: the identifier is rejected when it is empty, when it does not
    split on [":"] into exactly two parts, or when one of its parts is
    empty; the error text then ends with the expected format
    [account-id:access-point-name]. *)
Theorem C3_decode_rejects (id : string) :
  id = "" \/ List.length (strings.Split id ":") <> 2
  \/ In "" (strings.Split id ":") ->
  ObjectLambdaAccessPointParseResourceID id =
  ("", "",
   Some (errorString
           ("unexpected format for ID (" +:+ id
            +:+ "), expected account-id:access-point-name"))).
Proof.
  intros H.
  destruct (ObjectLambdaAccessPointParseResourceID id) as [[a n] [e|]] eqn:Hp.
  - revert Hp.
    unfold ObjectLambdaAccessPointParseResourceID,
      objectLambdaAccessPointResourceIDSeparator.
    by destruct (_ && _); intros [= <- <- <-].
  - exfalso. apply ParseResourceID_accepts in Hp as (Hs & Ha & Hn).
    destruct H as [->|[H|H]].
    + discriminate Hs.
    + by rewrite Hs in H.
    + rewrite Hs in H. destruct H as [H|[H|[]]]; congruence.
Qed.

(** An identifier with an empty second part. *)
Lemma C3_decode_rejects_witness :
  ObjectLambdaAccessPointParseResourceID "account:" =
  ("", "",
   Some (errorString
           ("unexpected format for ID (account:), "
            +:+ "expected account-id:access-point-name"))).
Proof.
  apply (C3_decode_rejects "account:"). right; right. vm_compute. auto.
Defined.

(** C10: on every identifier the decoder accepts, encoding the two
    decoded components gives the identifier back. *)
Theorem C10_encode_decode (id accountID accessPointName : string) :
  ObjectLambdaAccessPointParseResourceID id
  = (accountID, accessPointName, None) ->
  ObjectLambdaAccessPointCreateResourceID accountID accessPointName = id.
Proof.
  intros (Hs & _ & _)%ParseResourceID_accepts.
  unfold ObjectLambdaAccessPointCreateResourceID,
    objectLambdaAccessPointResourceIDSeparator.
  rewrite <- Hs. apply Join_Split_colon.
Qed.

(** The identifier of the Create scenario is accepted and rebuilt. *)
Lemma C10_encode_decode_witness :
  ObjectLambdaAccessPointCreateResourceID "123456789012" "example"
  = "123456789012:example".
Proof. apply C10_encode_decode. reflexivity. Defined.

(* ================================================================== *)
(** * Properties of expand and flatten *)
(* ================================================================== *)

(** A flat field that is absent, zero-valued or empty fails the guard of
    its assignment. *)
Lemma as_set_zero v l :
  as_set v = Some l -> is_zero v = true -> (0 <? List.length l) = false.
Proof. destruct v; intros [= ->] Hz; cbn in Hz. by destruct l. Qed.

Lemma as_list_zero v l :
  as_list v = Some l -> is_zero v = true -> (0 <? List.length l) = false.
Proof. destruct v; intros [= ->] Hz; cbn in Hz. by destruct l. Qed.

Lemma as_bool_zero v b : as_bool v = Some b -> is_zero v = true -> b = false.
Proof. destruct v; intros [= ->] Hz; cbn in Hz. by destruct b. Qed.

Lemma as_string_zero v s :
  as_string v = Some s -> is_zero v = true -> negb (String.eqb s "") = false.
Proof. destruct v; intros [= ->] Hz; cbn in Hz. by rewrite Hz. Qed.

Lemma index_absent (m : gmap string Value) key :
  m !! key = None -> is_zero (index m key) = true.
Proof. unfold index. by intros ->. Qed.

Lemma result_bind_Ok {A B} (r : result A) (k : A -> result B) b :
  result_bind r k = Ok b -> exists a, r = Ok a /\ k a = Ok b.
Proof. destruct r; [eauto|discriminate]. Qed.

(** Case analysis on the guard [v, ok := tfMap[key].(T); ok && ...] of
    one assignment, using that the flat field is zero where known. *)
Ltac field_guard :=
  let E := fresh "E" in
  let x := fresh "x" in
  match goal with
  | |- context [match as_set ?v with _ => _ end] =>
      destruct (as_set v) as [x|] eqn:E;
      [try rewrite (as_set_zero v x E) by assumption|]
  | |- context [match as_list ?v with _ => _ end] =>
      destruct (as_list v) as [x|] eqn:E;
      [try rewrite (as_list_zero v x E) by assumption|]
  | |- context [match as_string ?v with _ => _ end] =>
      destruct (as_string v) as [x|] eqn:E;
      [try rewrite (as_string_zero v x E) by assumption|]
  | |- context [match as_bool ?v with _ => _ end] =>
      destruct (as_bool v) as [x|] eqn:E;
      [try rewrite (as_bool_zero v x E) by assumption|]
  | |- context [if ?b then _ else _] => destruct b
  end.

Section AbsencePreserving.

Variable tfMap : gmap string Value.










End AbsencePreserving.

(** The four expanders of the Object Lambda configuration tree run to
    completion, with a non-nil result, on a non-nil map whose nested
    block is unset. *)
Lemma expandAwsLambdaTransformation_Some tfMap :
  exists o, expandAwsLambdaTransformation (Some tfMap) = Some o.
Proof. unfold expandAwsLambdaTransformation. eauto. Qed.

Lemma expandObjectLambdaTransformationConfiguration_returns tfMap :
  is_zero (index tfMap "content_transformation") = true ->
  exists o,
    expandObjectLambdaTransformationConfiguration (Some tfMap) = Ok (Some o).
Proof.
  intros Hz. unfold expandObjectLambdaTransformationConfiguration.
  repeat field_guard; cbn; eauto.
Qed.

Lemma expandObjectLambdaConfiguration_returns tfMap :
  is_zero (index tfMap "transformation_configuration") = true ->
  exists o, expandObjectLambdaConfiguration (Some tfMap) = Ok (Some o).
Proof.
  intros Hz. unfold expandObjectLambdaConfiguration.
  repeat field_guard; cbn; eauto.
Qed.

(** The two expanders that take a block list copy every flat field. *)
Lemma expandVpcConfiguration_copies m rest vpc_id :
  as_string (index m "vpc_id") = Some vpc_id ->
  expandS3ObjectLambdaAccessPointVpcConfiguration (Some (VMap m :: rest))
  = Ok (Some {| VpcId := Some vpc_id |}).
Proof.
  intros H. unfold expandS3ObjectLambdaAccessPointVpcConfiguration.
  cbn. by rewrite H.
Qed.

Lemma expandPublicAccessBlockConfiguration_copies m rest b1 b2 b3 b4 :
  as_bool (index m "block_public_acls") = Some b1 ->
  as_bool (index m "block_public_policy") = Some b2 ->
  as_bool (index m "ignore_public_acls") = Some b3 ->
  as_bool (index m "restrict_public_buckets") = Some b4 ->
  expandS3ObjectLambdaAccessPointPublicAccessBlockConfiguration
    (Some (VMap m :: rest))
  = Ok (Some {| BlockPublicAcls := Some b1; BlockPublicPolicy := Some b2;
                IgnorePublicAcls := Some b3;
                RestrictPublicBuckets := Some b4 |}).
Proof.
  intros H1 H2 H3 H4.
  unfold expandS3ObjectLambdaAccessPointPublicAccessBlockConfiguration.
  cbn. by rewrite H1, H2, H3, H4.
Qed.




(** C7: for the two configuration types that have both directions,
    flattening the expansion of a fully-populated block gives the block
    back. *)
Theorem C7_flatten_expand_roundtrip :
  (forall vpc_id,
      result_map flattenS3ObjectLambdaAccessPointVpcConfiguration
        (expandS3ObjectLambdaAccessPointVpcConfiguration
           (VpcConfiguration_block vpc_id))
      = Ok (VpcConfiguration_block vpc_id)) /\
  (forall b1 b2 b3 b4,
      result_map flattenS3ObjectLambdaAccessPointPublicAccessBlockConfiguration
        (expandS3ObjectLambdaAccessPointPublicAccessBlockConfiguration
           (PublicAccessBlockConfiguration_block b1 b2 b3 b4))
      = Ok (PublicAccessBlockConfiguration_block b1 b2 b3 b4)).
Proof.
  split.
  - intros vpc_id. unfold VpcConfiguration_block.
    by erewrite expandVpcConfiguration_copies by reflexivity.
  - intros b1 b2 b3 b4. unfold PublicAccessBlockConfiguration_block.
    erewrite expandPublicAccessBlockConfiguration_copies by reflexivity.
    reflexivity.
Qed.

(** C8: both flatten functions return the empty, non-nil list on a nil
    structure. *)
Theorem C8_flatten_nil :
  flattenS3ObjectLambdaAccessPointVpcConfiguration None = Some [] /\
  flattenS3ObjectLambdaAccessPointPublicAccessBlockConfiguration None
  = Some [].
Proof. split; reflexivity. Qed.

(* ================================================================== *)
(** * Properties of the CRUD handlers *)
(* ================================================================== *)

Section Handlers.

Context {World : Type}.
Variable errCodeNoSuchAccessPoint : string.
Variable Find : @S3Control World -> string -> string -> World
                -> option error * World.
Variable meta : @AWSClient World.

(** Read stops before any call on an identifier it cannot decode. *)
Lemma Read_malformed st e :
  snd (ObjectLambdaAccessPointParseResourceID (Id (d st))) = Some e ->
  resourceObjectLambdaAccessPointRead Find meta st = Ok (Some e, st).
Proof.
  unfold resourceObjectLambdaAccessPointRead, bind, get_d.
  destruct (ObjectLambdaAccessPointParseResourceID _) as [[a n] err].
  by intros [= ->].
Qed.

(** Read after a decoded identifier, by the finder's answer. *)
Lemma Read_decoded st accountID name err w :
  ObjectLambdaAccessPointParseResourceID (Id (d st))
  = (accountID, name, None) ->
  Find (S3ControlConn meta) accountID name (remote st) = (err, w) ->
  resourceObjectLambdaAccessPointRead Find meta st =
  let st1 := after_call (CallFind accountID name) w st in
  if negb (IsNewResource (d st)) && tfresource.NotFound err
  then Ok (None, with_d (SetId "") st1)
  else
    match err with
    | Some e =>
        Ok (Some (Errorf_w ("error reading S3 Object Lambda Access Point ("
                            +:+ Id (d st) +:+ ")") e), st1)
    | None =>
        Ok (None,
            with_d (fun d =>
                      Set_ "name" (VString name)
                        (Set_ "arn"
                           (VString
                              (arn.String
                                 {| arn.Partition := Partition meta;
                                    arn.Service := "s3-object-lambda";
                                    arn.Region := "";
                                    arn.AccountID := accountID;
                                    arn.Resource := "accesspoint/" +:+ name |}))
                           (Set_ "account_id" (VString accountID) d)))
              st1)
    end.
Proof.
  intros Hp Hf.
  unfold resourceObjectLambdaAccessPointRead, bind, get_d, call.
  rewrite Hp. cbn [remote]. rewrite Hf. cbv zeta.
  destruct (negb _ && _); [reflexivity|].
  destruct err; reflexivity.
Qed.

(** C2: when the get call of Read signals "not found", a resource that
    is not new has its identifier cleared and Read returns no error; a
    new resource keeps its identifier and Read returns the "not found"
    error, wrapped. *)
Theorem C2_read_not_found st accountID name err w :
  ObjectLambdaAccessPointParseResourceID (Id (d st))
  = (accountID, name, None) ->
  Find (S3ControlConn meta) accountID name (remote st) = (err, w) ->
  tfresource.NotFound err = true ->
  let st1 := after_call (CallFind accountID name) w st in
  (IsNewResource (d st) = false ->
   resourceObjectLambdaAccessPointRead Find meta st
   = Ok (None, with_d (SetId "") st1)
   /\ Id (d (with_d (SetId "") st1)) = "") /\
  (IsNewResource (d st) = true ->
   exists e,
     err = Some e /\
     resourceObjectLambdaAccessPointRead Find meta st =
     Ok (Some (Errorf_w ("error reading S3 Object Lambda Access Point ("
                         +:+ Id (d st) +:+ ")") e), st1)
     /\ errors.As_NotFoundError
          (Errorf_w ("error reading S3 Object Lambda Access Point ("
                     +:+ Id (d st) +:+ ")") e) <> None).
Proof.
  intros Hp Hf Hnf st1. rewrite (Read_decoded _ _ _ _ _ Hp Hf).
  cbv zeta. fold st1. rewrite Hnf. split; intros ->; cbn [negb andb].
  - done.
  - destruct err as [e|]; [|discriminate Hnf].
    exists e. repeat split.
    cbn [Errorf_w errors.As_NotFoundError].
    cbn [tfresource.NotFound] in Hnf.
    apply bool_decide_eq_true in Hnf. by destruct Hnf as [? ->].
Qed.

(** Delete stops before any call on an identifier it cannot decode. *)
Lemma Delete_decoded st accountID name err w :
  ObjectLambdaAccessPointParseResourceID (Id (d st))
  = (accountID, name, None) ->
  let input := {| delete_AccountId := Some accountID;
                  delete_Name := Some name |} in
  DeleteAccessPointForObjectLambda (S3ControlConn meta) input (remote st)
  = (err, w) ->
  resourceObjectLambdaAccessPointDelete errCodeNoSuchAccessPoint meta st =
  let st1 := after_call (CallDelete input) w st in
  if tfawserr.ErrCodeEquals err errCodeNoSuchAccessPoint
  then Ok (None, st1)
  else
    match err with
    | Some e =>
        Ok (Some (Errorf_w ("error deleting S3 Object Lambda Access Point ("
                            +:+ Id (d st) +:+ ")") e), st1)
    | None => Ok (None, st1)
    end.
Proof.
  intros Hp input Hd.
  unfold resourceObjectLambdaAccessPointDelete, bind, get_d, call.
  rewrite Hp. cbn [remote]. unfold aws.String. fold input. rewrite Hd.
  cbv zeta.
  destruct (tfawserr.ErrCodeEquals _ _); [reflexivity|].
  destruct err; reflexivity.
Qed.

(** C6: when the delete call returns the "no such access point" code,
    Delete returns no error; any other error of the call is returned,
    wrapped. *)
Theorem C6_delete_not_found st accountID name err w :
  ObjectLambdaAccessPointParseResourceID (Id (d st))
  = (accountID, name, None) ->
  let input := {| delete_AccountId := Some accountID;
                  delete_Name := Some name |} in
  DeleteAccessPointForObjectLambda (S3ControlConn meta) input (remote st)
  = (err, w) ->
  let st1 := after_call (CallDelete input) w st in
  (tfawserr.ErrCodeEquals err errCodeNoSuchAccessPoint = true ->
   resourceObjectLambdaAccessPointDelete errCodeNoSuchAccessPoint meta st
   = Ok (None, st1)) /\
  (forall e,
      err = Some e ->
      tfawserr.ErrCodeEquals err errCodeNoSuchAccessPoint = false ->
      resourceObjectLambdaAccessPointDelete errCodeNoSuchAccessPoint meta st =
      Ok (Some (Errorf_w ("error deleting S3 Object Lambda Access Point ("
                          +:+ Id (d st) +:+ ")") e), st1)).
Proof.
  intros Hp input Hd st1. rewrite (Delete_decoded _ _ _ _ _ Hp Hd).
  cbv zeta. fold input st1. split.
  - by intros ->.
  - by intros e -> ->.
Qed.

(** Read never panics, and calls the remote service at most once, with
    the finder. *)
Lemma Read_calls st :
  exists r st',
    resourceObjectLambdaAccessPointRead Find meta st = Ok (r, st') /\
    (calls st' = calls st \/
     exists accountID name,
       calls st' = calls st ++ [CallFind accountID name]).
Proof.
  destruct (ObjectLambdaAccessPointParseResourceID (Id (d st)))
    as [[accountID name] [e|]] eqn:Hp.
  - exists (Some e), st. split; [|by left].
    apply Read_malformed. by rewrite Hp.
  - destruct (Find (S3ControlConn meta) accountID name (remote st))
      as [err w] eqn:Hf.
    rewrite (Read_decoded _ _ _ _ _ Hp Hf). cbv zeta.
    destruct (negb _ && _); [|destruct err];
      eexists _, _; (split; [reflexivity|]); right; by exists accountID, name.
Qed.

(** C9: on every state Update is Read: the same result, the same final
    resource data and remote state; it returns, and the only call it
    can make on the remote service is Read's finder call. *)
Theorem C9_update_is_read st :
  resourceObjectLambdaAccessPointUpdate Find meta st
  = resourceObjectLambdaAccessPointRead Find meta st /\
  exists r st',
    resourceObjectLambdaAccessPointUpdate Find meta st = Ok (r, st') /\
    (calls st' = calls st \/
     exists accountID name,
       calls st' = calls st ++ [CallFind accountID name]).
Proof. split; [reflexivity|]. apply Read_calls. Qed.

End Handlers.

Section CreateScenario.

Context {World : Type}.
Variable Find : @S3Control World -> string -> string -> World
                -> option error * World.
Variable meta : @AWSClient World.

(** C4 (amended): in the scenario, when the create call and the get
    call succeed, Create assigns the identifier
    [123456789012:example] and its Read sets [arn] to
    [arn:<partition>:s3-object-lambda::123456789012:accesspoint/example],
    the region field being empty. *)
Theorem C4_create_scenario (st : @St World) w1 w2 :
  AccountID meta = "123456789012" ->
  attrs (d st) = scenario_attrs ->
  CreateAccessPointForObjectLambda (S3ControlConn meta) scenario_input
    (remote st) = (None, w1) ->
  Find (S3ControlConn meta) "123456789012" "example" w1 = (None, w2) ->
  exists st',
    resourceObjectLambdaAccessPointCreate Find meta st = Ok (None, st')
    /\ Id (d st') = "123456789012:example"
    /\ attrs (d st') !! "arn"
       = Some (VString
                 ("arn:" +:+ Partition meta
                  +:+ ":s3-object-lambda::123456789012:accesspoint/example"))
    /\ calls st'
       = calls st ++ [CallCreate scenario_input;
                      CallFind "123456789012" "example"].
Proof.
  intros Hacc Hattrs Hcreate Hfind.
  destruct st as [[id new a] w cs]. cbn [d attrs remote calls] in *. subst a.
  unfold resourceObjectLambdaAccessPointCreate, bind, ret, lift, get_d,
    call, modify_d.
  cbn [d remote]. rewrite Hacc.
  replace (GetOk _ "account_id") with (VNil, false) by reflexivity.
  replace (Get_TypeString _ "name") with (VString "example") by reflexivity.
  replace (GetOk _ "configuration")
    with (VList [VMap scenario_configuration], true) by reflexivity.
  cbn [as_string as_list as_map assert List.length Nat.ltb Nat.leb nth
         is_nil negb andb].
  replace (expandObjectLambdaConfiguration (Some scenario_configuration))
    with (Ok (create_Configuration scenario_input)) by reflexivity.
  change (set_Configuration _ _) with scenario_input.
  cbn [remote]. rewrite Hcreate.
  set (st1 := with_d _ _).
  assert (Hp : ObjectLambdaAccessPointParseResourceID (Id (d st1))
               = ("123456789012", "example", None)) by reflexivity.
  rewrite (Read_decoded Find meta st1 _ _ None w2 Hp Hfind).
  cbv zeta. rewrite andb_false_r.
  eexists. split; [reflexivity|].
  split; [reflexivity|]. split.
  - cbn [d with_d after_call Set_ attrs].
    rewrite lookup_insert_ne by done. rewrite lookup_insert_eq.
    reflexivity.
  - subst st1. cbn [calls with_d after_call]. by rewrite <- app_assoc.
Qed.

End CreateScenario.

Lemma length_append s t :
  String.length (s +:+ t) = String.length s + String.length t.
Proof.
  induction s as [|c s IH]; [done|].
  rewrite append_cons. cbn [String.length]. by rewrite IH.
Qed.

(** Whatever the partition, the ARN that Read builds is three bytes
    shorter than the text [arn:aws:s3-object-lambda:<partition>:...]. *)
Lemma arn_of_Read_length partition :
  String.length
    (arn.String {| arn.Partition := partition;
                   arn.Service := "s3-object-lambda";
                   arn.Region := "";
                   arn.AccountID := "123456789012";
                   arn.Resource := "accesspoint/" +:+ "example" |}) + 3
  = String.length
      ("arn:aws:s3-object-lambda:" +:+ partition
       +:+ ":123456789012:accesspoint/example").
Proof.
  unfold arn.String.
  cbn [arn.Partition arn.Service arn.Region arn.AccountID arn.Resource].
  rewrite !length_append. cbn [String.length]. lia.
Qed.

(** C4 (as stated, refuted): in the scenario, on a service where every
    call succeeds and in the partition [aws], Read does not set [arn] to
    [arn:aws:s3-object-lambda:aws:123456789012:accesspoint/example]. *)
Lemma C4_arn_has_empty_region :
  exists st',
    resourceObjectLambdaAccessPointCreate find_ok meta_aws scenario_st
    = Ok (None, st')
    /\ Id (d st') = "123456789012:example"
    /\ attrs (d st') !! "arn"
       = Some (VString
                 "arn:aws:s3-object-lambda::123456789012:accesspoint/example")
    /\ attrs (d st') !! "arn"
       <> Some (VString
                  ("arn:aws:s3-object-lambda:" +:+ Partition meta_aws
                   +:+ ":123456789012:accesspoint/example")).
Proof.
  eexists. split; [vm_compute; reflexivity|].
  split; [reflexivity|]. split; [reflexivity|].
  vm_compute. discriminate.
Qed.

(** The scenario on the service where every call succeeds. *)
Lemma C4_create_scenario_witness :
  exists st',
    resourceObjectLambdaAccessPointCreate find_ok meta_aws scenario_st
    = Ok (None, st')
    /\ Id (d st') = "123456789012:example"
    /\ attrs (d st') !! "arn"
       = Some (VString
                 ("arn:" +:+ Partition meta_aws
                  +:+ ":s3-object-lambda::123456789012:accesspoint/example"))
    /\ calls st'
       = calls scenario_st ++ [CallCreate scenario_input;
                               CallFind "123456789012" "example"].
Proof.
  apply (C4_create_scenario find_ok meta_aws scenario_st tt tt);
    reflexivity.
Defined.

(** Read of a tracked resource whose access point is gone, not new and
    new. *)
Lemma C2_read_not_found_witness :
  resourceObjectLambdaAccessPointRead find_missing meta_aws (tracked_st false)
  = Ok (None,
        {| d := {| Id := ""; IsNewResource := false; attrs := ∅ |};
           remote := tt;
           calls := [CallFind "123456789012" "example"] |})
  /\ exists e,
       resourceObjectLambdaAccessPointRead find_missing meta_aws
         (tracked_st true)
       = Ok (Some e,
             {| d := d (tracked_st true); remote := tt;
                calls := [CallFind "123456789012" "example"] |})
       /\ Error e
          = "error reading S3 Object Lambda Access Point "
            +:+ "(123456789012:example): couldn't find resource".
Proof.
  split.
  - apply (C2_read_not_found find_missing meta_aws (tracked_st false)
             "123456789012" "example"
             (Some (NotFoundError "couldn't find resource")) tt);
      reflexivity.
  - destruct (C2_read_not_found find_missing meta_aws (tracked_st true)
                "123456789012" "example"
                (Some (NotFoundError "couldn't find resource")) tt
                eq_refl eq_refl eq_refl) as [_ H].
    destruct (H eq_refl) as (e & He & Hr & _).
    exists (Errorf_w
              ("error reading S3 Object Lambda Access Point ("
               +:+ Id (d (tracked_st true)) +:+ ")") e).
    split; [exact Hr|]. injection He as <-. reflexivity.
Defined.

(** Delete when the call fails with the "no such access point" code,
    and when it fails with another code. *)
Lemma C6_delete_not_found_witness :
  resourceObjectLambdaAccessPointDelete "NoSuchAccessPoint"
    (meta_delete_fails "NoSuchAccessPoint") (tracked_st false)
  = Ok (None,
        {| d := d (tracked_st false); remote := tt;
           calls := [CallDelete {| delete_AccountId := Some "123456789012";
                                   delete_Name := Some "example" |}] |})
  /\ exists e,
       resourceObjectLambdaAccessPointDelete "NoSuchAccessPoint"
         (meta_delete_fails "AccessDenied") (tracked_st false)
       = Ok (Some e,
             {| d := d (tracked_st false); remote := tt;
                calls := [CallDelete
                            {| delete_AccountId := Some "123456789012";
                               delete_Name := Some "example" |}] |})
       /\ Error e
          = "error deleting S3 Object Lambda Access Point "
            +:+ "(123456789012:example): AccessDenied: request failed".
Proof.
  split.
  - apply (C6_delete_not_found "NoSuchAccessPoint"
             (meta_delete_fails "NoSuchAccessPoint") (tracked_st false)
             "123456789012" "example"
             (Some (awsError "NoSuchAccessPoint" "request failed")) tt);
      reflexivity.
  - eexists. split.
    + apply (C6_delete_not_found "NoSuchAccessPoint"
               (meta_delete_fails "AccessDenied") (tracked_st false)
               "123456789012" "example"
               (Some (awsError "AccessDenied" "request failed")) tt);
        reflexivity.
    + reflexivity.
Defined.

(* ################################################################## *)
(** * Further properties *)
(* ################################################################## *)

(* ================================================================== *)
(** * More on the resource-ID codec *)
(* ================================================================== *)

(** The decoder's verdict on an identifier that is not made of two
    non-empty parts. *)
Lemma ParseResourceID_malformed id :
  id = "" \/ List.length (strings.Split id ":") <> 2
  \/ In "" (strings.Split id ":") ->
  ObjectLambdaAccessPointParseResourceID id =
  ("", "",
   Some (errorString
           ("unexpected format for ID (" +:+ id
            +:+ "), expected account-id:access-point-name"))).
Proof.
  intros H.
  destruct (ObjectLambdaAccessPointParseResourceID id) as [[a n] [e|]] eqn:Hp.
  - revert Hp.
    unfold ObjectLambdaAccessPointParseResourceID,
      objectLambdaAccessPointResourceIDSeparator.
    by destruct (_ && _); intros [= <- <- <-].
  - exfalso. apply ParseResourceID_accepts in Hp as (Hs & Ha & Hn).
    destruct H as [->|[H|H]].
    + discriminate Hs.
    + by rewrite Hs in H.
    + rewrite Hs in H. destruct H as [H|[H|[]]]; congruence.
Qed.

(** X1: the decoder accepts exactly the identifiers of the form
    [a:n] with [a] and [n] non-empty and free of [":"], and returns
    those two parts. *)
Theorem X1_decode_accepts_iff (id a n : string) :
  ObjectLambdaAccessPointParseResourceID id = (a, n, None) <->
  id = a +:+ ":" +:+ n /\ a <> "" /\ n <> ""
  /\ strings.ContainsByte a ":" = false
  /\ strings.ContainsByte n ":" = false.
Proof.
  split.
  - intros (Hs & Ha & Hn)%ParseResourceID_accepts.
    assert (Hid : id = a +:+ ":" +:+ n).
    { rewrite <- (Join_Split_colon id), Hs. reflexivity. }
    repeat split; [done..| |];
      apply (splitFrom_colon_pieces id ""); try reflexivity;
      fold (strings.Split id ":"); rewrite Hs; cbn; auto.
  - intros (-> & Ha & Hn & Hca & Hcn).
    apply ParseResourceID_two; [|done..]. by apply Split_colon_two.
Qed.

(** X2: when the decoder returns an error, both returned components are
    empty, the identifier is not made of two non-empty parts, and the
    error text names the identifier and the expected format. *)
Theorem X2_decode_error_only_if_malformed (id a n : string) (e : error) :
  ObjectLambdaAccessPointParseResourceID id = (a, n, Some e) ->
  a = "" /\ n = ""
  /\ (List.length (strings.Split id ":") <> 2
      \/ In "" (strings.Split id ":"))
  /\ Error e = "unexpected format for ID (" +:+ id
               +:+ "), expected account-id:access-point-name".
Proof.
  unfold ObjectLambdaAccessPointParseResourceID,
    objectLambdaAccessPointResourceIDSeparator.
  destruct (strings.Split id ":") as [|p0 [|p1 [|p2 rest]]] eqn:Hs;
    cbn [List.length Nat.eqb andb nth];
    try (intros [= <- <- <-]; repeat split; left; cbn; lia).
  destruct (String.eqb_spec p0 "") as [->|?];
    [cbn [negb andb]; intros [= <- <- <-]; repeat split; right; cbn; auto|].
  destruct (String.eqb_spec p1 "") as [->|?];
    [cbn [negb andb]; intros [= <- <- <-]; repeat split; right; cbn; auto|].
  discriminate.
Qed.

(** An identifier with three parts. *)
Lemma X2_decode_error_only_if_malformed_witness :
  "" = "" /\ "" = ""
  /\ (List.length (strings.Split "a:b:c" ":") <> 2
      \/ In "" (strings.Split "a:b:c" ":"))
  /\ Error (errorString
              ("unexpected format for ID (a:b:c), "
               +:+ "expected account-id:access-point-name"))
     = "unexpected format for ID (" +:+ "a:b:c"
       +:+ "), expected account-id:access-point-name".
Proof.
  apply (X2_decode_error_only_if_malformed "a:b:c" "" ""). reflexivity.
Defined.

(** X3: the encoder is injective on pairs whose account IDs hold no
    [":"]: two such pairs with the same identifier are the same pair. *)
Theorem X3_encode_injective (a n a' n' : string) :
  strings.ContainsByte a ":" = false ->
  strings.ContainsByte a' ":" = false ->
  ObjectLambdaAccessPointCreateResourceID a n
  = ObjectLambdaAccessPointCreateResourceID a' n' ->
  a = a' /\ n = n'.
Proof.
  intros Ha Ha' Heq.
  unfold ObjectLambdaAccessPointCreateResourceID,
    objectLambdaAccessPointResourceIDSeparator in Heq.
  cbn [strings.Join] in Heq.
  assert (Hs : forall x y, strings.ContainsByte x ":" = false ->
               strings.Split (x +:+ ":" +:+ y) ":" = x :: strings.Split y ":").
  { intros x y Hx. unfold strings.Split.
    rewrite splitFrom_colon_app, append_nil_l by done.
    change (":" +:+ y) with (String ":" y).
    by rewrite splitFrom_colon_cons. }
  assert (Hh : a :: strings.Split n ":" = a' :: strings.Split n' ":").
  { rewrite <- !Hs by done. by rewrite Heq. }
  injection Hh as -> _. split; [done|].
  by apply (inj (String.app (a' +:+ ":"))); rewrite !append_assoc.
Qed.

Lemma X3_encode_injective_witness :
  "123456789012" = "123456789012" /\ "example" = "example".
Proof.
  apply (X3_encode_injective "123456789012" "example" "123456789012" "example");
    reflexivity.
Defined.

(** Splitting [a:n] on [":"] splits [a] and [n]. *)
Lemma splitFrom_colon_join a n : forall cur,
  strings.splitFrom ":" 0 cur (a +:+ ":" +:+ n)
  = strings.splitFrom ":" 0 cur a ++ strings.Split n ":".
Proof.
  induction a as [|c a IH]; intros cur.
  - rewrite append_nil_l. change (":" +:+ n) with (String ":" n).
    by rewrite splitFrom_colon_cons.
  - rewrite append_cons, !splitFrom_colon_cons.
    destruct (Ascii.eqb c ":"); by rewrite IH.
Qed.

Lemma Split_colon_singleton s p : strings.Split s ":" = [p] -> p = s.
Proof.
  intros Hs. pose proof (Join_Split_colon s) as HJ. by rewrite Hs in HJ.
Qed.

(** Whatever the components, an encoded identifier that the decoder
    accepts decodes to the components it was made of. *)
Lemma decode_encode_accepted a n a' n' :
  ObjectLambdaAccessPointParseResourceID
    (ObjectLambdaAccessPointCreateResourceID a n) = (a', n', None) ->
  a' = a /\ n' = n.
Proof.
  intros (Hs & _ & _)%ParseResourceID_accepts. revert Hs.
  unfold ObjectLambdaAccessPointCreateResourceID,
    objectLambdaAccessPointResourceIDSeparator. cbn [strings.Join].
  unfold strings.Split at 1. rewrite splitFrom_colon_join.
  fold (strings.Split a ":").
  destruct (strings.Split a ":") as [|p [|q ps]] eqn:Ha;
    [by apply splitFrom_nonempty in Ha| |].
  - destruct (strings.Split n ":") as [|p' [|q' ps']] eqn:Hn;
      [by apply splitFrom_nonempty in Hn| |discriminate].
    intros [= <- <-].
    apply Split_colon_singleton in Ha as ->.
    by apply Split_colon_singleton in Hn as ->.
  - destruct (strings.Split n ":") eqn:Hn;
      [by apply splitFrom_nonempty in Hn|].
    cbn. destruct ps; discriminate.
Qed.

Lemma ParseResourceID_rejects id a n e :
  ObjectLambdaAccessPointParseResourceID id = (a, n, Some e) ->
  a = "" /\ n = ""
  /\ e = errorString
           ("unexpected format for ID (" +:+ id
            +:+ "), expected account-id:access-point-name").
Proof.
  unfold ObjectLambdaAccessPointParseResourceID,
    objectLambdaAccessPointResourceIDSeparator.
  destruct (_ && _); [discriminate|]. by intros [= <- <- <-].
Qed.

(** X22: whatever the two components, decoding their encoding either
    returns exactly those components or fails with the format error; it
    never returns a different pair. *)
Theorem X22_decode_encode_exact_or_error (a n : string) :
  ObjectLambdaAccessPointParseResourceID
    (ObjectLambdaAccessPointCreateResourceID a n) = (a, n, None)
  \/ ObjectLambdaAccessPointParseResourceID
       (ObjectLambdaAccessPointCreateResourceID a n)
     = ("", "",
        Some (errorString
                ("unexpected format for ID ("
                 +:+ ObjectLambdaAccessPointCreateResourceID a n
                 +:+ "), expected account-id:access-point-name"))).
Proof.
  destruct (ObjectLambdaAccessPointParseResourceID
              (ObjectLambdaAccessPointCreateResourceID a n))
    as [[a' n'] [e|]] eqn:Hp.
  - right. by destruct (ParseResourceID_rejects _ _ _ _ Hp) as (-> & -> & ->).
  - left. by destruct (decode_encode_accepted _ _ _ _ Hp) as [-> ->].
Qed.

(* ================================================================== *)
(** * More on expand *)
(* ================================================================== *)

Lemma as_map_Some v m : as_map v = Some m <-> v = VMap m.
Proof. destruct v; cbn; split; intros; simplify_eq; done. Qed.

Lemma as_string_Some v s : as_string v = Some s <-> v = VString s.
Proof. destruct v; cbn; split; intros; simplify_eq; done. Qed.

Lemma as_bool_Some v b : as_bool v = Some b <-> v = VBool b.
Proof. destruct v; cbn; split; intros; simplify_eq; done. Qed.

Lemma nonempty_string_Some x v :
  nonempty_string x = Some v <-> x = VString v /\ v <> "".
Proof.
  unfold nonempty_string. split.
  - destruct x; cbn [as_string]; try done.
    destruct (String.eqb_spec s ""); cbn [negb]; [done|]. by intros [= ->].
  - intros [-> Hne]. cbn [as_string]. by destruct (String.eqb_spec v "").
Qed.

Lemma true_bool_Some x b : true_bool x = Some b <-> x = VBool true /\ b = true.
Proof.
  unfold true_bool. split.
  - destruct x as [| |[]| | |]; cbn [as_bool]; try done. by intros [= <-].
  - by intros [-> ->].
Qed.

Lemma nonempty_set_Some x l : nonempty_set x = Some l <-> x = VSet l /\ l <> [].
Proof.
  unfold nonempty_set. split.
  - destruct x as [| | | |[|y m]|]; cbn [as_set List.length Nat.ltb Nat.leb];
      try done.
    by intros [= <-].
  - intros [-> Hne]. cbn [as_set]. by destruct l.
Qed.

Lemma nonempty_list_Some x l :
  nonempty_list x = Some l <-> x = VList l /\ l <> [].
Proof.
  unfold nonempty_list. split.
  - destruct x as [| | |[|y m]| |]; cbn [as_list List.length Nat.ltb Nat.leb];
      try done.
    by intros [= <-].
  - intros [-> Hne]. cbn [as_list]. by destruct l.
Qed.

(** The expand functions in terms of their guards. *)
Lemma expandAwsLambdaTransformation_eq (tfMap : gmap string Value) :
  expandAwsLambdaTransformation (Some tfMap) =
  Some {| FunctionArn := nonempty_string (index tfMap "function_arn");
          FunctionPayload :=
            nonempty_string (index tfMap "function_payload") |}.
Proof.
  unfold expandAwsLambdaTransformation, nonempty_string.
  destruct (as_string (index tfMap "function_arn")) as [a|];
    destruct (as_string (index tfMap "function_payload")) as [p|];
    try destruct (negb (String.eqb a ""));
    try destruct (negb (String.eqb p ""));
    reflexivity.
Qed.

Lemma expandObjectLambdaContentTransformation_eq (tfMap : gmap string Value) :
  expandObjectLambdaContentTransformation (Some tfMap) =
  match nonempty_list (index tfMap "aws_lambda") with
  | Some v =>
      result_bind (assert (as_map (nth 0 v VNil)))
        (fun m =>
           Ok (Some {| AwsLambda := expandAwsLambdaTransformation (Some m) |}))
  | None => Ok (Some {| AwsLambda := None |})
  end.
Proof.
  unfold expandObjectLambdaContentTransformation, nonempty_list.
  destruct (as_list (index tfMap "aws_lambda")) as [v|]; [|reflexivity].
  destruct (0 <? List.length v); [|reflexivity].
  by destruct (as_map (nth 0 v VNil)).
Qed.

Lemma expandObjectLambdaTransformationConfiguration_eq
  (tfMap : gmap string Value) :
  expandObjectLambdaTransformationConfiguration (Some tfMap) =
  result_bind
    match nonempty_list (index tfMap "content_transformation") with
    | Some v =>
        result_bind (assert (as_map (nth 0 v VNil)))
          (fun m => expandObjectLambdaContentTransformation (Some m))
    | None => Ok None
    end
    (fun c =>
       Ok (Some {| Actions :=
                     flex.ExpandStringSet
                       <$> nonempty_set (index tfMap "actions");
                   ContentTransformation := c |})).
Proof.
  unfold expandObjectLambdaTransformationConfiguration, nonempty_list,
    nonempty_set.
  destruct (as_set (index tfMap "actions")) as [a|];
    try destruct (0 <? List.length a);
    destruct (as_list (index tfMap "content_transformation")) as [v|];
    try destruct (0 <? List.length v);
    try reflexivity;
    destruct (as_map (nth 0 v VNil)) as [m|]; try reflexivity;
    cbn [assert result_bind];
    by destruct (expandObjectLambdaContentTransformation (Some m)).
Qed.

Lemma expandObjectLambdaConfiguration_eq (tfMap : gmap string Value) :
  expandObjectLambdaConfiguration (Some tfMap) =
  result_bind
    match nonempty_set (index tfMap "transformation_configuration") with
    | Some v => expandObjectLambdaTransformationConfigurations v
    | None => Ok None
    end
    (fun l =>
       Ok (Some {| AllowedFeatures :=
                     flex.ExpandStringSet
                       <$> nonempty_set (index tfMap "allowed_features");
                   CloudWatchMetricsEnabled :=
                     true_bool (index tfMap "cloud_watch_metrics_enabled");
                   SupportingAccessPoint :=
                     nonempty_string (index tfMap "supporting_access_point");
                   TransformationConfigurations := l |})).
Proof.
  unfold expandObjectLambdaConfiguration, nonempty_set, nonempty_string,
    true_bool.
  destruct (as_set (index tfMap "allowed_features")) as [a|];
    try destruct (0 <? List.length a);
    destruct (as_bool (index tfMap "cloud_watch_metrics_enabled")) as [[]|];
    destruct (as_string (index tfMap "supporting_access_point")) as [s|];
    try destruct (negb (String.eqb s ""));
    destruct (as_set (index tfMap "transformation_configuration")) as [v|];
    try destruct (0 <? List.length v);
    try reflexivity;
    cbn [result_bind];
    by destruct (expandObjectLambdaTransformationConfigurations v).
Qed.

(** X4: [expandAwsLambdaTransformation] on a non-nil map always returns
    a structure, in which a field is set to [v] exactly when the flat
    field is the non-empty string [v]; it never holds a pointer to the
    empty string. *)
Theorem X4_expandAwsLambdaTransformation_fields
  (tfMap : gmap string Value) :
  exists o,
    expandAwsLambdaTransformation (Some tfMap) = Some o
    /\ (forall v, FunctionArn o = Some v <->
                  index tfMap "function_arn" = VString v /\ v <> "")
    /\ (forall v, FunctionPayload o = Some v <->
                  index tfMap "function_payload" = VString v /\ v <> "").
Proof.
  rewrite expandAwsLambdaTransformation_eq. eexists. split; [reflexivity|].
  split; intros v; apply nonempty_string_Some.
Qed.

Lemma fmap_ExpandStringSet_Some (o : option (list Value)) l :
  flex.ExpandStringSet <$> o = Some l <->
  exists vs, o = Some vs /\ l = flex.ExpandStringSet vs.
Proof.
  destruct o as [vs|]; cbn; split.
  - intros [= <-]. eauto.
  - by intros (? & [= <-] & ->).
  - done.
  - by intros (? & ? & _).
Qed.

(** X5: in a structure returned by [expandObjectLambdaConfiguration], a
    field is set exactly when its flat field passes the guard: the
    features when the set is non-empty, the metrics flag only as
    [true], the supporting access point when the string is non-empty,
    the transformation configurations when the set is non-empty and
    they expand to a non-nil slice. *)
Theorem X5_expandObjectLambdaConfiguration_fields
  (tfMap : gmap string Value) (o : ObjectLambdaConfiguration) :
  expandObjectLambdaConfiguration (Some tfMap) = Ok (Some o) ->
  (forall l, AllowedFeatures o = Some l <->
             exists vs, index tfMap "allowed_features" = VSet vs
                        /\ vs <> [] /\ l = flex.ExpandStringSet vs) /\
  (forall b, CloudWatchMetricsEnabled o = Some b <->
             index tfMap "cloud_watch_metrics_enabled" = VBool true
             /\ b = true) /\
  (forall v, SupportingAccessPoint o = Some v <->
             index tfMap "supporting_access_point" = VString v /\ v <> "") /\
  (forall l, TransformationConfigurations o = Some l <->
             exists vs, index tfMap "transformation_configuration" = VSet vs
                        /\ vs <> []
                        /\ expandObjectLambdaTransformationConfigurations vs
                           = Ok (Some l)).
Proof.
  rewrite expandObjectLambdaConfiguration_eq.
  intros (l0 & Hl0 & [= <-])%result_bind_Ok.
  cbn [AllowedFeatures CloudWatchMetricsEnabled SupportingAccessPoint
         TransformationConfigurations].
  repeat apply conj.
  - intros l. rewrite fmap_ExpandStringSet_Some. split.
    + intros (vs & [-> ?]%nonempty_set_Some & ->). eauto.
    + intros (vs & H1 & H2 & ->). exists vs. split; [|done].
      by apply nonempty_set_Some.
  - intros b. apply true_bool_Some.
  - intros v. apply nonempty_string_Some.
  - intros l. split.
    + intros ->.
      destruct (nonempty_set _) as [vs|] eqn:E; [|discriminate].
      apply nonempty_set_Some in E as [-> ?]. eauto.
    + intros (vs & H1 & H2 & H3).
      assert (E : nonempty_set (index tfMap "transformation_configuration")
                  = Some vs) by by apply nonempty_set_Some.
      rewrite E, H3 in Hl0. by injection Hl0.
Qed.

Lemma X5_expandObjectLambdaConfiguration_fields_witness :
  CloudWatchMetricsEnabled
    {| AllowedFeatures := Some ["GetObject-Range"];
       CloudWatchMetricsEnabled := None;
       SupportingAccessPoint :=
         Some "arn:aws:s3:us-east-1:123456789012:accesspoint/my-ap";
       TransformationConfigurations := None |} = Some true <->
  index scenario_configuration "cloud_watch_metrics_enabled" = VBool true
  /\ true = true.
Proof.
  apply (X5_expandObjectLambdaConfiguration_fields scenario_configuration).
  reflexivity.
Defined.

(** The content transformation expander never returns nil on a non-nil
    map. *)
Lemma expandObjectLambdaContentTransformation_not_nil tfMap :
  expandObjectLambdaContentTransformation (Some tfMap) <> Ok None.
Proof.
  rewrite expandObjectLambdaContentTransformation_eq.
  destruct (nonempty_list _) as [v|]; [|done].
  by destruct (as_map (nth 0 v VNil)).
Qed.

Lemma nonempty_list_bad_block x :
  bad_block x <->
  exists v, nonempty_list x = Some v /\ as_map (nth 0 v VNil) = None.
Proof.
  split.
  - intros (y & rest & -> & Hy). exists (y :: rest). by split.
  - intros (v & [-> Hne]%nonempty_list_Some & Hv).
    destruct v as [|y rest]; [done|]. by exists y, rest.
Qed.

Lemma expandObjectLambdaContentTransformation_panics tfMap :
  expandObjectLambdaContentTransformation (Some tfMap) = Panic <->
  bad_content_transformation tfMap.
Proof.
  unfold bad_content_transformation.
  rewrite nonempty_list_bad_block, expandObjectLambdaContentTransformation_eq.
  destruct (nonempty_list (index tfMap "aws_lambda")) as [v|].
  - destruct (as_map (nth 0 v VNil)) as [m|] eqn:Em; cbn [assert result_bind].
    + split; [done|]. intros (v' & [= <-] & Hv). congruence.
    + split; [eauto|done].
  - split; [done|]. by intros (? & ? & _).
Qed.

(** X6: [expandObjectLambdaContentTransformation] panics exactly when
    [aws_lambda] is a non-empty list whose first element is not a map;
    otherwise it returns a non-nil structure. *)
Theorem X6_expandObjectLambdaContentTransformation_panics
  (tfMap : gmap string Value) :
  (expandObjectLambdaContentTransformation (Some tfMap) = Panic <->
   bad_content_transformation tfMap) /\
  (~ bad_content_transformation tfMap ->
   exists o, expandObjectLambdaContentTransformation (Some tfMap)
             = Ok (Some o)).
Proof.
  split; [apply expandObjectLambdaContentTransformation_panics|].
  intros Hgood.
  destruct (expandObjectLambdaContentTransformation (Some tfMap))
    as [[o|]|] eqn:E.
  - eauto.
  - by apply expandObjectLambdaContentTransformation_not_nil in E.
  - by apply expandObjectLambdaContentTransformation_panics in E.
Qed.

Lemma expandObjectLambdaTransformationConfiguration_not_nil tfMap :
  expandObjectLambdaTransformationConfiguration (Some tfMap) <> Ok None.
Proof.
  rewrite expandObjectLambdaTransformationConfiguration_eq.
  by intros (c & _ & [=])%result_bind_Ok.
Qed.

(** [expandObjectLambdaTransformationConfiguration] panics exactly on a
    bad content transformation block. *)
Lemma expandObjectLambdaTransformationConfiguration_panics tfMap :
  expandObjectLambdaTransformationConfiguration (Some tfMap) = Panic <->
  bad_transformation_configuration tfMap.
Proof.
  unfold bad_transformation_configuration.
  rewrite nonempty_list_bad_block,
    expandObjectLambdaTransformationConfiguration_eq.
  destruct (nonempty_list (index tfMap "content_transformation"))
    as [v|] eqn:Ev.
  - destruct (as_map (nth 0 v VNil)) as [m|] eqn:Em; cbn [assert result_bind].
    + apply nonempty_list_Some in Ev as [Hv Hne].
      destruct v as [|y rest]; [done|]. cbn [nth] in Em.
      apply as_map_Some in Em as ->.
      pose proof (expandObjectLambdaContentTransformation_panics m) as Hp.
      split.
      * intros H. right. exists m, rest. split; [done|]. apply Hp.
        by destruct (expandObjectLambdaContentTransformation (Some m)).
      * intros [(v' & [= <-] & Hv')|(m' & rest' & Hm' & Hbad)];
          [done|].
        rewrite Hv in Hm'. injection Hm' as <- <-.
        apply Hp in Hbad. by rewrite Hbad.
    + split; [eauto|done].
  - split; [done|].
    intros [(v' & [=] & _)|(m' & rest' & Hm' & _)].
    assert (nonempty_list (index tfMap "content_transformation")
            = Some (VMap m' :: rest')) by by apply nonempty_list_Some.
    congruence.
Qed.

Section TransformationConfigurations.

Lemma expandObjectLambdaTransformationConfigurations_loop_Ok tfList :
  forall apiObjects r,
    expandObjectLambdaTransformationConfigurations_loop tfList apiObjects
    = Ok r <->
    exists os,
      Forall2 expands (omap as_map tfList) os
      /\ r = match os with
             | [] => apiObjects
             | _ => Some (default [] apiObjects ++ os)
             end.
Proof.
  induction tfList as [|v rest IH]; intros acc r.
  - cbn. split.
    + intros [= <-]. exists []. by split; [constructor|].
    + intros (os & Hos & ->). by inversion Hos.
  - cbn [expandObjectLambdaTransformationConfigurations_loop omap list_omap].
    destruct (as_map v) as [m|]; [|apply IH].
    destruct (expandObjectLambdaTransformationConfiguration (Some m))
      as [[o|]|] eqn:Em; cbn [result_bind].
    + rewrite IH. split.
      * intros (os & Hos & ->). exists (o :: os). split; [by constructor|].
        unfold append. destruct os; [done|]. cbn.
        by rewrite <- app_assoc.
      * intros (os & Hos & ->).
        inversion Hos as [|m0 o0 ms os' Ho Hos' E1 E2]; subst.
        unfold expands in Ho. rewrite Em in Ho. injection Ho as <-.
        exists os'. split; [done|].
        unfold append. destruct os'; [done|]. cbn.
        by rewrite <- app_assoc.
    + by apply expandObjectLambdaTransformationConfiguration_not_nil in Em.
    + split; [done|]. intros (os & Hos & _).
      inversion Hos as [|m0 o0 ms os' Ho Hos' E1 E2]; subst.
      unfold expands in Ho. congruence.
Qed.

Lemma expandObjectLambdaTransformationConfigurations_loop_Panic tfList :
  forall apiObjects,
    expandObjectLambdaTransformationConfigurations_loop tfList apiObjects
    = Panic <-> Exists bad_element tfList.
Proof.
  induction tfList as [|v rest IH]; intros acc.
  - cbn. split; [done|]. by intros ?%Exists_nil.
  - cbn [expandObjectLambdaTransformationConfigurations_loop].
    rewrite Exists_cons. unfold bad_element at 1.
    destruct (as_map v) as [m|] eqn:Ev.
    + apply as_map_Some in Ev as ->.
      pose proof (expandObjectLambdaTransformationConfiguration_panics m)
        as Hp.
      destruct (expandObjectLambdaTransformationConfiguration (Some m))
        as [[o|]|] eqn:Em; cbn [result_bind].
      * rewrite IH. split; [by right|].
        intros [(m' & [= <-] & Hbad)|H]; [|done].
        by apply Hp in Hbad.
      * by apply expandObjectLambdaTransformationConfiguration_not_nil in Em.
      * split; [|done]. intros _. left. exists m. split; [done|].
        by apply Hp.
    + rewrite IH. split; [by right|].
      intros [(m' & -> & _)|H]; [done|done].
Qed.

(** X7: [expandObjectLambdaTransformationConfigurations] returns the
    expansions of the map elements of the list, in order; elements that
    are not maps are skipped, and the result is the nil slice, never an
    empty one, when nothing is left. *)
Theorem X7_expandObjectLambdaTransformationConfigurations_Ok
  (tfList : list Value)
  (r : option (list ObjectLambdaTransformationConfiguration)) :
  expandObjectLambdaTransformationConfigurations tfList = Ok r <->
  exists os,
    Forall2 expands (omap as_map tfList) os
    /\ r = match os with [] => None | _ => Some os end.
Proof.
  unfold expandObjectLambdaTransformationConfigurations.
  destruct tfList as [|v rest].
  - cbn. split.
    + intros [= <-]. exists []. by split; [constructor|].
    + intros (os & Hos & ->). by inversion Hos.
  - cbn [List.length Nat.eqb].
    apply expandObjectLambdaTransformationConfigurations_loop_Ok.
Qed.

(** X8: [expandObjectLambdaConfiguration] panics exactly when some
    element of [transformation_configuration] is a map whose
    [content_transformation] block, or the [aws_lambda] block inside it,
    is a non-empty list with a first element that is not a map. *)
Theorem X8_expandObjectLambdaConfiguration_panics
  (tfMap : gmap string Value) :
  expandObjectLambdaConfiguration (Some tfMap) = Panic <->
  bad_configuration tfMap.
Proof.
  rewrite expandObjectLambdaConfiguration_eq. unfold bad_configuration.
  destruct (nonempty_set (index tfMap "transformation_configuration"))
    as [vs|] eqn:E.
  - apply nonempty_set_Some in E as [Hvs Hne].
    assert (Hp : expandObjectLambdaTransformationConfigurations vs = Panic
                 <-> Exists bad_element vs).
    { unfold expandObjectLambdaTransformationConfigurations.
      destruct vs; [done|]. cbn [List.length Nat.eqb].
      apply expandObjectLambdaTransformationConfigurations_loop_Panic. }
    destruct (expandObjectLambdaTransformationConfigurations vs) eqn:El;
      cbn [result_bind].
    + split; [done|]. intros (vs' & Hvs' & Hex).
      rewrite Hvs in Hvs'. injection Hvs' as <-.
      by apply Hp in Hex.
    + split; [|done]. intros _. exists vs. split; [done|]. by apply Hp.
  - cbn [result_bind]. split; [done|]. intros (vs & Hvs & Hex).
    assert (vs <> []) by (intros ->; by apply Exists_nil in Hex).
    assert (nonempty_set (index tfMap "transformation_configuration")
            = Some vs) by by apply nonempty_set_Some.
    congruence.
Qed.

End TransformationConfigurations.

(* ================================================================== *)
(** * More on the VPC and public access block configurations *)
(* ================================================================== *)

Lemma expandVpcConfiguration_eq vConfig :
  expandS3ObjectLambdaAccessPointVpcConfiguration vConfig =
  match vConfig with
  | None | Some [] | Some (VNil :: _) => Ok None
  | Some (VMap m :: _) =>
      match as_string (index m "vpc_id") with
      | Some s => Ok (Some {| VpcId := Some s |})
      | None => Panic
      end
  | Some (_ :: _) => Panic
  end.
Proof.
  destruct vConfig as [[|[] rest]|]; try reflexivity.
  unfold expandS3ObjectLambdaAccessPointVpcConfiguration. cbn.
  by destruct (as_string _).
Qed.

(** X9: [expandS3ObjectLambdaAccessPointVpcConfiguration] returns nil
    exactly on an empty list or a nil first element, a structure exactly
    when the first element is a map with a string under [vpc_id] (which
    it copies, also when empty), and panics on every other input: a
    first element that is not a map, a missing or mistyped [vpc_id]. *)
Theorem X9_expandVpcConfiguration_cases (vConfig : option (list Value)) :
  (expandS3ObjectLambdaAccessPointVpcConfiguration vConfig = Ok None <->
   len vConfig = 0 \/ exists rest, vConfig = Some (VNil :: rest)) /\
  (forall c,
      expandS3ObjectLambdaAccessPointVpcConfiguration vConfig = Ok (Some c)
      <-> exists m rest s,
            vConfig = Some (VMap m :: rest)
            /\ index m "vpc_id" = VString s
            /\ c = {| VpcId := Some s |}) /\
  (expandS3ObjectLambdaAccessPointVpcConfiguration vConfig = Panic <->
   exists x rest,
     vConfig = Some (x :: rest) /\ x <> VNil
     /\ forall m, x = VMap m -> as_string (index m "vpc_id") = None).
Proof.
  rewrite expandVpcConfiguration_eq.
  destruct vConfig as [[|x rest]|]; cbn [len List.length].
  1,3: split; [|split]; [split; [auto|done] | intros c; split; [done|]
                        | split; [done|] ];
       [by intros (? & ? & ? & ? & _) | by intros (? & ? & ? & _)].
  destruct x as [| s | b | l | l | m].
  - split; [|split].
    + split; [eauto|done].
    + intros c; split; [done|]. by intros (? & ? & ? & [=] & _).
    + split; [done|]. by intros (? & ? & [= <- _] & ? & _).
  - split; [|split].
    + split; [done|]. by intros [|(? & [=])].
    + intros c; split; [done|]. by intros (? & ? & ? & [=] & _).
    + split; [|done]. intros _. eexists _, _. by repeat split.
  - split; [|split].
    + split; [done|]. by intros [|(? & [=])].
    + intros c; split; [done|]. by intros (? & ? & ? & [=] & _).
    + split; [|done]. intros _. eexists _, _. by repeat split.
  - split; [|split].
    + split; [done|]. by intros [|(? & [=])].
    + intros c; split; [done|]. by intros (? & ? & ? & [=] & _).
    + split; [|done]. intros _. eexists _, _. by repeat split.
  - split; [|split].
    + split; [done|]. by intros [|(? & [=])].
    + intros c; split; [done|]. by intros (? & ? & ? & [=] & _).
    + split; [|done]. intros _. eexists _, _. by repeat split.
  - destruct (as_string (index m "vpc_id")) as [s|] eqn:Es.
    + apply as_string_Some in Es. split; [|split].
      * split; [done|]. by intros [|(? & [=])].
      * intros c; split.
        -- intros [= <-]. by exists m, rest, s.
        -- intros (m' & rest' & s' & [= <- <-] & Hs & ->). congruence.
      * split; [done|]. intros (x & rest' & [= <- <-] & _ & H).
        specialize (H m eq_refl). by rewrite Es in H.
    + split; [|split].
      * split; [done|]. by intros [|(? & [=])].
      * intros c; split; [done|].
        intros (m' & rest' & s' & [= <- <-] & Hs & ->).
        by rewrite Hs in Es.
      * split; [|done]. intros _. exists (VMap m), rest.
        repeat split; [done|]. by intros m' [= <-].
Qed.

Lemma expandPublicAccessBlockConfiguration_eq vConfig :
  expandS3ObjectLambdaAccessPointPublicAccessBlockConfiguration vConfig =
  match vConfig with
  | None | Some [] | Some (VNil :: _) => Ok None
  | Some (VMap m :: _) =>
      match as_bool (index m "block_public_acls"),
            as_bool (index m "block_public_policy"),
            as_bool (index m "ignore_public_acls"),
            as_bool (index m "restrict_public_buckets") with
      | Some b1, Some b2, Some b3, Some b4 =>
          Ok (Some {| BlockPublicAcls := Some b1;
                      BlockPublicPolicy := Some b2;
                      IgnorePublicAcls := Some b3;
                      RestrictPublicBuckets := Some b4 |})
      | _, _, _, _ => Panic
      end
  | Some (_ :: _) => Panic
  end.
Proof.
  destruct vConfig as [[|[] rest]|]; try reflexivity.
  unfold expandS3ObjectLambdaAccessPointPublicAccessBlockConfiguration. cbn.
  destruct (as_bool (index m "block_public_acls")); [|done].
  destruct (as_bool (index m "block_public_policy")); [|done].
  destruct (as_bool (index m "ignore_public_acls")); [|done].
  by destruct (as_bool (index m "restrict_public_buckets")).
Qed.

(** X10: on a block whose first element is a map,
    [expandS3ObjectLambdaAccessPointPublicAccessBlockConfiguration]
    returns a structure exactly when all four flags are booleans in the
    map, each copied through a pointer, and panics as soon as one of
    them is missing or not a boolean; it never returns nil there. *)
Theorem X10_expandPublicAccessBlockConfiguration_cases
  (m : gmap string Value) (rest : list Value) :
  (forall c,
      expandS3ObjectLambdaAccessPointPublicAccessBlockConfiguration
        (Some (VMap m :: rest)) = Ok (Some c)
      <-> exists b1 b2 b3 b4,
            index m "block_public_acls" = VBool b1
            /\ index m "block_public_policy" = VBool b2
            /\ index m "ignore_public_acls" = VBool b3
            /\ index m "restrict_public_buckets" = VBool b4
            /\ c = {| BlockPublicAcls := Some b1;
                      BlockPublicPolicy := Some b2;
                      IgnorePublicAcls := Some b3;
                      RestrictPublicBuckets := Some b4 |}) /\
  (expandS3ObjectLambdaAccessPointPublicAccessBlockConfiguration
     (Some (VMap m :: rest)) = Panic
   <-> exists key,
         In key ["block_public_acls"; "block_public_policy";
                 "ignore_public_acls"; "restrict_public_buckets"]
         /\ as_bool (index m key) = None) /\
  expandS3ObjectLambdaAccessPointPublicAccessBlockConfiguration
    (Some (VMap m :: rest)) <> Ok None.
Proof.
  rewrite expandPublicAccessBlockConfiguration_eq.
  split; [|split].
  - intros c. split.
    + destruct (as_bool (index m "block_public_acls")) as [b1|] eqn:E1;
        [|done].
      destruct (as_bool (index m "block_public_policy")) as [b2|] eqn:E2;
        [|done].
      destruct (as_bool (index m "ignore_public_acls")) as [b3|] eqn:E3;
        [|done].
      destruct (as_bool (index m "restrict_public_buckets")) as [b4|] eqn:E4;
        [|done].
      intros [= <-]. apply as_bool_Some in E1, E2, E3, E4.
      by exists b1, b2, b3, b4.
    + intros (b1 & b2 & b3 & b4 & -> & -> & -> & -> & ->). reflexivity.
  - split.
    + destruct (as_bool (index m "block_public_acls")) eqn:E1;
        [|intros _; exists "block_public_acls"; cbn; auto].
      destruct (as_bool (index m "block_public_policy")) eqn:E2;
        [|intros _; exists "block_public_policy"; cbn; auto].
      destruct (as_bool (index m "ignore_public_acls")) eqn:E3;
        [|intros _; exists "ignore_public_acls"; cbn; auto].
      destruct (as_bool (index m "restrict_public_buckets")) eqn:E4;
        [done|intros _; exists "restrict_public_buckets"; cbn; auto 6].
    + intros (key & Hin & H). cbn in Hin.
      destruct Hin as [<-|[<-|[<-|[<-|[]]]]]; rewrite H;
        repeat (destruct (as_bool _); try done).
  - repeat (destruct (as_bool _); try done).
Qed.

(** X11: expanding what flatten produced never panics and gives the
    structure back with every nil pointer replaced by a pointer to the
    zero value; a nil structure comes back as nil. *)
Theorem X11_expand_flatten :
  (forall config,
      expandS3ObjectLambdaAccessPointVpcConfiguration
        (flattenS3ObjectLambdaAccessPointVpcConfiguration config)
      = Ok ((fun c => {| VpcId := Some (aws.StringValue (VpcId c)) |})
              <$> config)) /\
  (forall config,
      expandS3ObjectLambdaAccessPointPublicAccessBlockConfiguration
        (flattenS3ObjectLambdaAccessPointPublicAccessBlockConfiguration
           config)
      = Ok ((fun c =>
               {| BlockPublicAcls := Some (aws.BoolValue (BlockPublicAcls c));
                  BlockPublicPolicy :=
                    Some (aws.BoolValue (BlockPublicPolicy c));
                  IgnorePublicAcls :=
                    Some (aws.BoolValue (IgnorePublicAcls c));
                  RestrictPublicBuckets :=
                    Some (aws.BoolValue (RestrictPublicBuckets c)) |})
              <$> config)).
Proof. split; intros [c|]; reflexivity. Qed.

(* ================================================================== *)
(** * More on the CRUD handlers *)
(* ================================================================== *)

Section HandlersMore.

Context {World : Type}.
Variable errCodeNoSuchAccessPoint : string.
Variable Find : @S3Control World -> string -> string -> World
                -> option error * World.
Variable meta : @AWSClient World.

(** Create is its request, the create call, and Read on the new ID. *)
Lemma Create_run (st : @St World) :
  resourceObjectLambdaAccessPointCreate Find meta st =
  match createRequest meta (d st) with
  | Panic => Panic
  | Ok (resourceID, input) =>
      let '(err, w) :=
        CreateAccessPointForObjectLambda (S3ControlConn meta) input
          (remote st) in
      let st1 := after_call (CallCreate input) w st in
      match err with
      | Some e =>
          Ok (Some (Errorf_w
                      ("error creating S3 Object Lambda Access Point ("
                       +:+ resourceID +:+ ")") e), st1)
      | None =>
          resourceObjectLambdaAccessPointRead Find meta
            (with_d (SetId resourceID) st1)
      end
  end.
Proof.
  unfold resourceObjectLambdaAccessPointCreate, createRequest, bind, ret,
    lift, get_d, call, modify_d.
  destruct (GetOk (d st) "account_id") as [v1 ok1].
  destruct (GetOk (d st) "configuration") as [v2 ok2].
  destruct ok1; [destruct (as_string v1)|]; cbn [assert result_bind];
    try reflexivity;
    (destruct (as_string (Get_TypeString (d st) "name"));
     cbn [assert result_bind]; [|reflexivity]);
    (destruct ok2; [destruct (as_list v2) as [l|]|];
     cbn [assert result_bind]; try reflexivity);
    try (destruct ((0 <? List.length l) && negb (is_nil (nth 0 l VNil)));
         [destruct (as_map (nth 0 l VNil)) as [m|];
          cbn [assert result_bind]; [|reflexivity];
          destruct (expandObjectLambdaConfiguration (Some m));
          cbn [result_bind]; [|reflexivity]|]);
    cbn [remote result_bind];
    destruct (CreateAccessPointForObjectLambda _ _ _) as [[e|] w];
    reflexivity.
Qed.

(** The fields of the request and the resource ID. *)
Lemma createRequest_Ok (d0 : ResourceData) resourceID input :
  createRequest meta d0 = Ok (resourceID, input) ->
  exists a n,
    create_AccountId input = Some a /\ create_Name input = Some n
    /\ resourceID = a +:+ ":" +:+ n
    /\ as_string (Get_TypeString d0 "name") = Some n
    /\ a = match attrs d0 !! "account_id" with
           | Some (VString a') =>
               if String.eqb a' "" then AccountID meta else a'
           | _ => AccountID meta
           end.
Proof.
  unfold createRequest.
  intros (a & Ha & (n & Hn & (i & Hi & [= <- <-])%result_bind_Ok)
            %result_bind_Ok)%result_bind_Ok.
  exists a, n.
  assert (create_AccountId i = Some a /\ create_Name i = Some n) as [? ?].
  { destruct (GetOk d0 "configuration") as [v ok]. destruct ok.
    - apply result_bind_Ok in Hi as (l & _ & Hi).
      destruct (_ && _).
      + apply result_bind_Ok in Hi as (m & _ & Hi).
        apply result_bind_Ok in Hi as (c & _ & Hi).
        by injection Hi as <-.
      + by injection Hi as <-.
    - by injection Hi as <-. }
  repeat split; [done|done| |].
  - by destruct (as_string (Get_TypeString d0 "name")); simplify_eq/=.
  - unfold GetOk in Ha. destruct (attrs d0 !! "account_id") as [v|].
    + destruct v as [|s| | | |]; cbn in Ha;
        try (destruct (String.eqb s "")); cbn in Ha;
        repeat case_match; simplify_eq/=; done.
    + by injection Ha.
Qed.

(** Read never panics, never touches the ID unless it clears it, and
    makes at most the finder call for the decoded pair. *)
Lemma Read_cases (st : @St World) :
  (exists e,
      snd (ObjectLambdaAccessPointParseResourceID (Id (d st))) = Some e
      /\ resourceObjectLambdaAccessPointRead Find meta st = Ok (Some e, st))
  \/ exists a n err w,
       ObjectLambdaAccessPointParseResourceID (Id (d st)) = (a, n, None)
       /\ Find (S3ControlConn meta) a n (remote st) = (err, w)
       /\ resourceObjectLambdaAccessPointRead Find meta st =
          let st1 := after_call (CallFind a n) w st in
          if negb (IsNewResource (d st)) && tfresource.NotFound err
          then Ok (None, with_d (SetId "") st1)
          else
            match err with
            | Some e =>
                Ok (Some (Errorf_w
                            ("error reading S3 Object Lambda Access Point ("
                             +:+ Id (d st) +:+ ")") e), st1)
            | None =>
                Ok (None,
                    with_d
                      (fun d =>
                         Set_ "name" (VString n)
                           (Set_ "arn"
                              (VString
                                 (arn.String
                                    {| arn.Partition := Partition meta;
                                       arn.Service := "s3-object-lambda";
                                       arn.Region := "";
                                       arn.AccountID := a;
                                       arn.Resource :=
                                         "accesspoint/" +:+ n |}))
                              (Set_ "account_id" (VString a) d)))
                      st1)
            end.
Proof.
  destruct (ObjectLambdaAccessPointParseResourceID (Id (d st)))
    as [[a n] [e|]] eqn:Hp.
  - left. exists e. split; [done|]. apply Read_malformed. by rewrite Hp.
  - right.
    destruct (Find (S3ControlConn meta) a n (remote st)) as [err w] eqn:Hf.
    exists a, n, err, w. split; [done|]. split; [done|].
    by apply Read_decoded.
Qed.

(** X12: whenever Create returns, its first call on the service is the
    create call, for the configured account ID when that is a non-empty
    string and the provider's account otherwise, and for the configured
    name; the only call that can follow is the finder for the same
    account and name. Create never calls delete. *)
Theorem X12_create_calls (st : @St World) r st' :
  resourceObjectLambdaAccessPointCreate Find meta st = Ok (r, st') ->
  exists input a n,
    create_AccountId input = Some a /\ create_Name input = Some n
    /\ as_string (Get_TypeString (d st) "name") = Some n
    /\ a = match attrs (d st) !! "account_id" with
           | Some (VString a') =>
               if String.eqb a' "" then AccountID meta else a'
           | _ => AccountID meta
           end
    /\ (calls st' = calls st ++ [CallCreate input]
        \/ calls st' = calls st ++ [CallCreate input; CallFind a n]).
Proof.
  rewrite Create_run.
  destruct (createRequest meta (d st)) as [[rid input]|] eqn:Hreq; [|done].
  destruct (createRequest_Ok _ _ _ Hreq)
    as (a & n & Ha & Hn & -> & Hname & Hacc).
  destruct (CreateAccessPointForObjectLambda _ _ _) as [[e|] w].
  - intros [= <- <-]. exists input, a, n. repeat split; try done. by left.
  - cbv zeta. set (st1 := with_d _ _). intros Hr.
    exists input, a, n. repeat split; try done.
    destruct (Read_cases st1)
      as [(e & _ & He)|(a' & n' & err & w' & Hp & _ & He)].
    + rewrite He in Hr. injection Hr as <- <-. by left.
    + right.
      assert (a' = a /\ n' = n) as [-> ->]
        by by apply decode_encode_accepted.
      rewrite He in Hr. cbv zeta in Hr.
      destruct (negb _ && _); [|destruct err]; injection Hr as <- <-;
        subst st1; cbn [calls with_d after_call];
        by rewrite <- app_assoc.
Qed.


(** X14: when Create returns no error for a resource marked new, the
    create call and the finder call were made, in that order, for one
    account and name; the ID is that pair encoded, it decodes, and the
    attributes [account_id], [name] and [arn] are set from it. *)
Theorem X14_create_success (st : @St World) st' :
  IsNewResource (d st) = true ->
  resourceObjectLambdaAccessPointCreate Find meta st = Ok (None, st') ->
  exists input a n,
    create_AccountId input = Some a /\ create_Name input = Some n
    /\ calls st' = calls st ++ [CallCreate input; CallFind a n]
    /\ Id (d st') = a +:+ ":" +:+ n
    /\ ObjectLambdaAccessPointParseResourceID (Id (d st')) = (a, n, None)
    /\ attrs (d st') !! "account_id" = Some (VString a)
    /\ attrs (d st') !! "name" = Some (VString n)
    /\ attrs (d st') !! "arn"
       = Some (VString ("arn:" +:+ Partition meta
                        +:+ ":s3-object-lambda::" +:+ a
                        +:+ ":accesspoint/" +:+ n)).
Proof.
  intros Hnew. rewrite Create_run.
  destruct (createRequest meta (d st)) as [[rid input]|] eqn:Hreq; [|done].
  destruct (createRequest_Ok _ _ _ Hreq) as (a & n & Ha & Hn & -> & _ & _).
  destruct (CreateAccessPointForObjectLambda _ _ _) as [[e|] w]; [done|].
  cbv zeta. set (st1 := with_d _ _). intros Hr.
  destruct (Read_cases st1)
    as [(e & _ & He)|(a' & n' & err & w' & Hp & _ & He)];
    [by rewrite He in Hr|].
  assert (a' = a /\ n' = n) as [-> ->] by by apply decode_encode_accepted.
  rewrite He in Hr. cbv zeta in Hr.
  replace (IsNewResource (d st1)) with true in Hr by done.
  cbn [negb andb] in Hr. destruct err; [done|].
  injection Hr as <-. exists input, a, n.
  subst st1. cbn [d calls with_d after_call SetId Set_ Id attrs].
  repeat split; try done.
  - by rewrite <- app_assoc.
  - rewrite !lookup_insert_ne by done. by rewrite lookup_insert_eq.
  - by rewrite lookup_insert_eq.
  - rewrite lookup_insert_ne by done. rewrite lookup_insert_eq.
    unfold arn.String.
    cbn [arn.Partition arn.Service arn.Region arn.AccountID arn.Resource].
    reflexivity.
Qed.


(** X16: on an ID that is empty or not made of two non-empty parts, Read
    returns the decoder's error and changes nothing: no call is made,
    the resource data stay as they are. *)
Theorem X16_read_malformed_id (st : @St World) :
  Id (d st) = "" \/ List.length (strings.Split (Id (d st)) ":") <> 2
  \/ In "" (strings.Split (Id (d st)) ":") ->
  resourceObjectLambdaAccessPointRead Find meta st =
  Ok (Some (errorString
              ("unexpected format for ID (" +:+ Id (d st)
               +:+ "), expected account-id:access-point-name")), st).
Proof.
  intros H. apply Read_malformed.
  by rewrite (ParseResourceID_malformed _ H).
Qed.

(** X17: when Read returns no error and the ID is not cleared, the ID
    is unchanged and decodes to the pair now stored under [account_id]
    and [name], [arn] is built from that pair and the partition, every
    other attribute is untouched, and the finder was called once. *)
Theorem X17_read_success (st : @St World) st' :
  resourceObjectLambdaAccessPointRead Find meta st = Ok (None, st') ->
  Id (d st') <> "" ->
  exists a n,
    Id (d st') = Id (d st)
    /\ ObjectLambdaAccessPointCreateResourceID a n = Id (d st)
    /\ attrs (d st') !! "account_id" = Some (VString a)
    /\ attrs (d st') !! "name" = Some (VString n)
    /\ attrs (d st') !! "arn"
       = Some (VString ("arn:" +:+ Partition meta
                        +:+ ":s3-object-lambda::" +:+ a
                        +:+ ":accesspoint/" +:+ n))
    /\ (forall key, key <> "account_id" -> key <> "name" -> key <> "arn" ->
                    attrs (d st') !! key = attrs (d st) !! key)
    /\ IsNewResource (d st') = IsNewResource (d st)
    /\ calls st' = calls st ++ [CallFind a n].
Proof.
  intros Hr Hid.
  destruct (Read_cases st)
    as [(e & _ & He)|(a & n & err & w & Hp & _ & He)];
    [by rewrite He in Hr|].
  rewrite He in Hr. cbv zeta in Hr.
  destruct (negb _ && _); [by injection Hr as <-|].
  destruct err; [done|]. injection Hr as <-.
  exists a, n. cbn [d calls with_d after_call Set_ Id attrs IsNewResource].
  split; [done|]. split.
  { apply ParseResourceID_accepts in Hp as (Hs & _ & _).
    unfold ObjectLambdaAccessPointCreateResourceID,
      objectLambdaAccessPointResourceIDSeparator.
    rewrite <- Hs. apply Join_Split_colon. }
  split; [rewrite !lookup_insert_ne by done; by rewrite lookup_insert_eq|].
  split; [by rewrite lookup_insert_eq|].
  split; [rewrite lookup_insert_ne by done; by rewrite lookup_insert_eq|].
  split; [|done].
  intros key H1 H2 H3. by rewrite !lookup_insert_ne.
Qed.



Lemma Errorf_w_transparent prefix e code :
  tfawserr.ErrCodeEquals (Some (Errorf_w prefix e)) code
  = tfawserr.ErrCodeEquals (Some e) code
  /\ tfresource.NotFound (Some (Errorf_w prefix e))
     = tfresource.NotFound (Some e).
Proof. done. Qed.


(** Delete stops before any call on an identifier it cannot decode. *)
Lemma Delete_malformed (st : @St World) e :
  snd (ObjectLambdaAccessPointParseResourceID (Id (d st))) = Some e ->
  resourceObjectLambdaAccessPointDelete errCodeNoSuchAccessPoint meta st
  = Ok (Some e, st).
Proof.
  unfold resourceObjectLambdaAccessPointDelete, bind, get_d.
  destruct (ObjectLambdaAccessPointParseResourceID _) as [[a n] err].
  by intros [= ->].
Qed.

(** X20: on an ID that is empty or not made of two non-empty parts,
    Delete returns the decoder's error without calling the service. *)
Theorem X20_delete_malformed_id (st : @St World) :
  Id (d st) = "" \/ List.length (strings.Split (Id (d st)) ":") <> 2
  \/ In "" (strings.Split (Id (d st)) ":") ->
  resourceObjectLambdaAccessPointDelete errCodeNoSuchAccessPoint meta st =
  Ok (Some (errorString
              ("unexpected format for ID (" +:+ Id (d st)
               +:+ "), expected account-id:access-point-name")), st).
Proof.
  intros H. apply Delete_malformed.
  by rewrite (ParseResourceID_malformed _ H).
Qed.

(** X21: Delete always returns and never changes the resource data, so
    it does not clear the ID itself. It makes no call and returns an
    error, or makes the delete call once, for the account and name the
    ID decodes to, and then returns no error exactly when the call
    succeeded or failed with the "no such access point" code. *)
Theorem X21_delete_frame (st : @St World) :
  exists r st',
    resourceObjectLambdaAccessPointDelete errCodeNoSuchAccessPoint meta st
    = Ok (r, st')
    /\ d st' = d st
    /\ ((st' = st /\ is_Some r)
        \/ exists a n err w,
             ObjectLambdaAccessPointParseResourceID (Id (d st))
             = (a, n, None)
             /\ DeleteAccessPointForObjectLambda (S3ControlConn meta)
                  {| delete_AccountId := Some a; delete_Name := Some n |}
                  (remote st) = (err, w)
             /\ remote st' = w
             /\ calls st'
                = calls st ++ [CallDelete {| delete_AccountId := Some a;
                                             delete_Name := Some n |}]
             /\ (r = None <->
                 err = None
                 \/ tfawserr.ErrCodeEquals err errCodeNoSuchAccessPoint
                    = true)).
Proof.
  destruct (ObjectLambdaAccessPointParseResourceID (Id (d st)))
    as [[a n] [e|]] eqn:Hp.
  - exists (Some e), st. split; [|split; [done|left; eauto]].
    apply Delete_malformed. by rewrite Hp.
  - destruct (DeleteAccessPointForObjectLambda (S3ControlConn meta)
                {| delete_AccountId := Some a; delete_Name := Some n |}
                (remote st)) as [err w] eqn:Hd.
    rewrite (Delete_decoded _ _ _ _ _ _ _ Hp Hd). cbv zeta.
    destruct (tfawserr.ErrCodeEquals err errCodeNoSuchAccessPoint) eqn:Hc;
      [|destruct err as [e|]]; eexists _, _; (split; [reflexivity|]);
      (split; [done|]); right; exists a, n; eexists _, _;
      (split; [done|]); (split; [exact Hd|]);
      (split; [done|]); (split; [reflexivity|]).
    + split; auto.
    + split; [done|]. intros [|]; congruence.
    + split; auto.
Qed.

End HandlersMore.

(* ================================================================== *)
(** * Properties of the Kendra thesaurus data source *)
(* ================================================================== *)

Section DataSourceThesaurusFacts.

Context {World Conn Config Tags Output : Type}.
Variable FindThesaurusByID :
  Conn -> string -> string -> World -> (option Output * option error) * World.
Variable ListTags :
  Conn -> string -> World -> (Tags * option error) * World.
Variable IgnoreAWS : Tags -> Tags.
Variable IgnoreConfig : Tags -> Config -> Tags.
Variable Map : Tags -> Value.
Variable attribute : string -> Output -> Value.
Variable SetError : string -> Value -> option error.
Variable meta : @kendra.AWSClient Conn Config.

Local Notation "'thesaurusRead'" :=
  (kendra.dataSourceThesaurusRead FindThesaurusByID ListTags IgnoreAWS
     IgnoreConfig Map attribute SetError meta).

Lemma Set_checked_Id key value d0 :
  Id (snd (kendra.Set_checked SetError key value d0)) = Id d0.
Proof. unfold kendra.Set_checked. by destruct (SetError key value). Qed.

Lemma Set_checked_other key value d0 key' :
  key' <> key ->
  attrs (snd (kendra.Set_checked SetError key value d0)) !! key'
  = attrs d0 !! key'.
Proof.
  intros Hne. unfold kendra.Set_checked.
  destruct (SetError key value); [done|].
  cbn [snd Set_ attrs]. by rewrite lookup_insert_ne.
Qed.

Lemma set_attributes_Id arn resp d0 :
  Id (kendra.set_attributes attribute SetError arn resp d0) = Id d0.
Proof.
  unfold kendra.set_attributes, kendra.Set_unchecked. cbv zeta.
  by rewrite !Set_checked_Id.
Qed.

Lemma set_attributes_arn arn resp d0 :
  SetError "arn" (VString arn) = None ->
  attrs (kendra.set_attributes attribute SetError arn resp d0) !! "arn"
  = Some (VString arn).
Proof.
  intros Hset. unfold kendra.set_attributes, kendra.Set_unchecked. cbv zeta.
  rewrite !Set_checked_other by done.
  unfold kendra.Set_checked. rewrite Hset. cbn [snd Set_ attrs].
  by rewrite lookup_insert_eq.
Qed.

(** X23: when the finder returns an error, the data source reports one
    error diagnostic that quotes the current ID of the data (not the
    thesaurus ID asked for) and the error text; when it returns neither
    an error nor a response, the diagnostic quotes the thesaurus ID. In
    both cases nothing is written to the data and the tags are not
    listed. *)
Theorem X23_thesaurus_find_fails (st : kendra.St) id indexId resp err w :
  as_string (Get_TypeString (kendra.d st) "thesaurus_id") = Some id ->
  as_string (Get_TypeString (kendra.d st) "index_id") = Some indexId ->
  FindThesaurusByID (kendra.KendraConn meta) id indexId (kendra.remote st)
  = (resp, err, w) ->
  let st1 := {| kendra.d := kendra.d st; kendra.remote := w;
                kendra.calls :=
                  kendra.calls st ++ [kendra.CallFindThesaurus id indexId] |} in
  (forall e,
      err = Some e ->
      thesaurusRead st =
      Ok (diag.Errorf ("getting Kendra Thesaurus (" +:+ Id (kendra.d st)
                       +:+ "): " +:+ Error e), st1)) /\
  (err = None -> resp = None ->
   thesaurusRead st =
   Ok (diag.Errorf ("getting Kendra Thesaurus (" +:+ id
                    +:+ "): empty response"), st1)).
Proof.
  intros Hid Hindex Hfind st1.
  unfold kendra.dataSourceThesaurusRead. cbv zeta.
  rewrite Hid, Hindex. cbn [assert result_bind]. rewrite Hfind.
  split; [by intros e ->|by intros -> ->].
Qed.

(** X24: when the data source returns without diagnostics, it has
    called the finder for the configured thesaurus and index and then
    the tag lister for the thesaurus ARN, whose resource part is
    [index/<index>/thesaurus/<thesaurus>], and it has set the ID to
    [<thesaurus>/<index>]; [arn] holds that ARN unless [d.Set] refused
    it. *)
Theorem X24_thesaurus_success (st st' : kendra.St) :
  thesaurusRead st = Ok ([], st') ->
  exists id indexId,
    as_string (Get_TypeString (kendra.d st) "thesaurus_id") = Some id
    /\ as_string (Get_TypeString (kendra.d st) "index_id") = Some indexId
    /\ Id (kendra.d st') = id +:+ "/" +:+ indexId
    /\ kendra.calls st'
       = kendra.calls st
         ++ [kendra.CallFindThesaurus id indexId;
             kendra.CallListTags (kendra.thesaurus_arn meta id indexId)]
    /\ (SetError "arn" (VString (kendra.thesaurus_arn meta id indexId))
        = None ->
        attrs (kendra.d st') !! "arn"
        = Some (VString (kendra.thesaurus_arn meta id indexId))).
Proof.
  unfold kendra.dataSourceThesaurusRead. cbv zeta.
  destruct (as_string (Get_TypeString (kendra.d st) "thesaurus_id"))
    as [id|]; [|done].
  destruct (as_string (Get_TypeString (kendra.d st) "index_id"))
    as [indexId|]; [|done].
  cbn [assert result_bind].
  destruct (FindThesaurusByID _ _ _ _) as [[resp [e|]] w]; [done|].
  destruct resp as [resp|]; [|done].
  change (arn.String _) with (kendra.thesaurus_arn meta id indexId).
  set (arn := kendra.thesaurus_arn meta id indexId).
  destruct (kendra.Set_checked SetError "source_s3_path" _ _)
    as [[e|] d2] eqn:Hs3; [done|].
  destruct (ListTags _ _ _) as [[tags [e|]] w']; [done|].
  destruct (kendra.Set_checked SetError "tags" _ _)
    as [[e|] d3] eqn:Htags; [done|].
  intros [= <-]. exists id, indexId.
  cbn [kendra.d kendra.calls SetId Id attrs].
  split; [done|]. split; [done|]. split; [done|].
  split; [by rewrite <- app_assoc|].
  intros Hset.
  apply (f_equal snd) in Htags, Hs3. cbn [snd] in Htags, Hs3.
  rewrite <- Htags, Set_checked_other by done.
  rewrite <- Hs3, Set_checked_other by done.
  by apply set_attributes_arn.
Qed.

(** X25: the data source always reports at most one diagnostic, an
    error, and whenever it reports one the ID of the data is left as it
    was: the ID is set only on the path without diagnostics. *)
Theorem X25_thesaurus_error_keeps_id (st st' : kendra.St) diags :
  thesaurusRead st = Ok (diags, st') ->
  diags <> [] ->
  Id (kendra.d st') = Id (kendra.d st)
  /\ exists summary,
       diags = [{| DiagSeverity := SeverityError; Summary := summary |}].
Proof.
  unfold kendra.dataSourceThesaurusRead. cbv zeta.
  destruct (as_string (Get_TypeString (kendra.d st) "thesaurus_id"))
    as [id|]; [|done].
  destruct (as_string (Get_TypeString (kendra.d st) "index_id"))
    as [indexId|]; [|done].
  cbn [assert result_bind].
  destruct (FindThesaurusByID _ _ _ _) as [[resp [e|]] w];
    [intros [= <- <-] _; split; [done|by eexists]|].
  destruct resp as [resp|];
    [|intros [= <- <-] _; split; [done|by eexists]].
  destruct (kendra.Set_checked SetError "source_s3_path" _ _)
    as [[e|] d2] eqn:Hs3;
    apply (f_equal snd) in Hs3; cbn [snd] in Hs3.
  { intros [= <- <-] _. cbn [kendra.d]. split; [|by eexists].
    by rewrite <- Hs3, Set_checked_Id, set_attributes_Id. }
  destruct (ListTags _ _ _) as [[tags [e|]] w'].
  { intros [= <- <-] _. cbn [kendra.d]. split; [|by eexists].
    by rewrite <- Hs3, Set_checked_Id, set_attributes_Id. }
  destruct (kendra.Set_checked SetError "tags" _ _)
    as [[e|] d3] eqn:Htags;
    apply (f_equal snd) in Htags; cbn [snd] in Htags.
  { intros [= <- <-] _. cbn [kendra.d]. split; [|by eexists].
    by rewrite <- Htags, Set_checked_Id, <- Hs3, Set_checked_Id,
         set_attributes_Id. }
  by intros [= <- <-].
Qed.

End DataSourceThesaurusFacts.

(* ================================================================== *)
(** * The further properties on the example services *)
(* ================================================================== *)

(** Create in the scenario: the create call, then the finder. *)
Lemma X12_create_calls_witness :
  exists r st',
    resourceObjectLambdaAccessPointCreate find_ok meta_aws scenario_st
    = Ok (r, st')
    /\ exists input a n,
         create_AccountId input = Some a /\ create_Name input = Some n
         /\ as_string (Get_TypeString (d scenario_st) "name") = Some n
         /\ a = match attrs (d scenario_st) !! "account_id" with
                | Some (VString a') =>
                    if String.eqb a' "" then AccountID meta_aws else a'
                | _ => AccountID meta_aws
                end
         /\ (calls st' = calls scenario_st ++ [CallCreate input]
             \/ calls st'
                = calls scenario_st ++ [CallCreate input; CallFind a n]).
Proof.
  eexists _, _. split; [vm_compute; reflexivity|].
  apply (X12_create_calls find_ok meta_aws scenario_st None). reflexivity.
Defined.


(** Create in the scenario returns no error: ID and attributes agree. *)
Lemma X14_create_success_witness :
  exists st',
    resourceObjectLambdaAccessPointCreate find_ok meta_aws scenario_st
    = Ok (None, st')
    /\ exists input a n,
         create_AccountId input = Some a /\ create_Name input = Some n
         /\ calls st' = calls scenario_st ++ [CallCreate input; CallFind a n]
         /\ Id (d st') = a +:+ ":" +:+ n
         /\ ObjectLambdaAccessPointParseResourceID (Id (d st'))
            = (a, n, None)
         /\ attrs (d st') !! "account_id" = Some (VString a)
         /\ attrs (d st') !! "name" = Some (VString n)
         /\ attrs (d st') !! "arn"
            = Some (VString ("arn:" +:+ Partition meta_aws
                             +:+ ":s3-object-lambda::" +:+ a
                             +:+ ":accesspoint/" +:+ n)).
Proof.
  eexists. split; [vm_compute; reflexivity|].
  apply (X14_create_success find_ok meta_aws scenario_st); reflexivity.
Defined.


(** Read and Delete of a resource whose ID is empty. *)
Lemma X16_read_malformed_id_witness :
  resourceObjectLambdaAccessPointRead find_ok meta_aws scenario_st =
  Ok (Some (errorString
              ("unexpected format for ID (" +:+ Id (d scenario_st)
               +:+ "), expected account-id:access-point-name")),
      scenario_st).
Proof.
  apply (X16_read_malformed_id find_ok meta_aws scenario_st). by left.
Defined.

Lemma X20_delete_malformed_id_witness :
  resourceObjectLambdaAccessPointDelete "NoSuchAccessPoint" meta_aws
    scenario_st =
  Ok (Some (errorString
              ("unexpected format for ID (" +:+ Id (d scenario_st)
               +:+ "), expected account-id:access-point-name")),
      scenario_st).
Proof.
  apply (X20_delete_malformed_id "NoSuchAccessPoint" meta_aws scenario_st).
  by left.
Defined.

(** Read of a tracked resource that the finder finds. *)
Lemma X17_read_success_witness :
  exists st',
    resourceObjectLambdaAccessPointRead find_ok meta_aws (tracked_st false)
    = Ok (None, st')
    /\ Id (d st') <> ""
    /\ exists a n,
         Id (d st') = Id (d (tracked_st false))
         /\ ObjectLambdaAccessPointCreateResourceID a n
            = Id (d (tracked_st false))
         /\ attrs (d st') !! "account_id" = Some (VString a)
         /\ attrs (d st') !! "name" = Some (VString n)
         /\ attrs (d st') !! "arn"
            = Some (VString ("arn:" +:+ Partition meta_aws
                             +:+ ":s3-object-lambda::" +:+ a
                             +:+ ":accesspoint/" +:+ n))
         /\ (forall key,
                key <> "account_id" -> key <> "name" -> key <> "arn" ->
                attrs (d st') !! key = attrs (d (tracked_st false)) !! key)
         /\ IsNewResource (d st') = IsNewResource (d (tracked_st false))
         /\ calls st' = calls (tracked_st false) ++ [CallFind a n].
Proof.
  eexists. split; [vm_compute; reflexivity|]. split; [discriminate|].
  apply (X17_read_success find_ok meta_aws (tracked_st false));
    [reflexivity|discriminate].
Defined.



(** The data source when the finder fails. *)
Lemma X23_thesaurus_find_fails_witness :
  thesaurus_read (None, Some (errorString "timeout")) thesaurus_st =
  Ok (diag.Errorf "getting Kendra Thesaurus (): timeout",
      {| kendra.d := kendra.d thesaurus_st; kendra.remote := tt;
         kendra.calls := [kendra.CallFindThesaurus "thes-1" "idx-1"] |}).
Proof.
  destruct (X23_thesaurus_find_fails
              (thesaurus_find (None, Some (errorString "timeout")))
              thesaurus_tags (fun t => t) (fun t _ => t) (fun _ => VMap ∅)
              (fun key _ => VString key) (fun _ _ => None) thesaurus_meta
              thesaurus_st "thes-1" "idx-1" None
              (Some (errorString "timeout")) tt eq_refl eq_refl eq_refl)
    as [H _].
  exact (H _ eq_refl).
Defined.

(** The data source when the thesaurus is found. *)
Lemma X24_thesaurus_success_witness :
  exists st',
    thesaurus_read (Some tt, None) thesaurus_st = Ok ([], st')
    /\ Id (kendra.d st') = "thes-1/idx-1"
    /\ attrs (kendra.d st') !! "arn"
       = Some (VString
                 ("arn:aws:kendra:us-east-1:123456789012:"
                  +:+ "index/idx-1/thesaurus/thes-1")).
Proof.
  eexists. split; [vm_compute; reflexivity|].
  destruct (X24_thesaurus_success
              (thesaurus_find (Some tt, None)) thesaurus_tags
              (fun t => t) (fun t _ => t) (fun _ => VMap ∅)
              (fun key _ => VString key) (fun _ _ => None) thesaurus_meta
              thesaurus_st _ eq_refl)
    as (id & indexId & Hid & Hindex & HId & _ & Harn).
  injection Hid as <-. injection Hindex as <-.
  split; [exact HId|]. exact (Harn eq_refl).
Defined.

(** The data source when the finder returns nothing. *)
Lemma X25_thesaurus_error_keeps_id_witness :
  exists diags st',
    thesaurus_read (None, None) thesaurus_st = Ok (diags, st')
    /\ Id (kendra.d st') = Id (kendra.d thesaurus_st)
    /\ exists summary,
         diags = [{| DiagSeverity := SeverityError; Summary := summary |}].
Proof.
  eexists _, _. split; [vm_compute; reflexivity|].
  apply (X25_thesaurus_error_keeps_id
           (thesaurus_find (None, None)) thesaurus_tags
           (fun t => t) (fun t _ => t) (fun _ => VMap ∅)
           (fun key _ => VString key) (fun _ _ => None) thesaurus_meta
           thesaurus_st); [reflexivity|discriminate].
Defined.
